(** * The engine-api request dispatcher (client/request.go)

    A shallow embedding of [sendClientRequest], [doSendClientRequest],
    [newRequest] and [tryProxy], with the Go standard-library functions they
    call, and the properties of the dispatch / retry / error-classification
    pipeline proved over it.

    Conventions.
    - A Go [string] or [[]byte] is a [string] (a sequence of bytes).
    - A Go [int] is a [Z] kept in the 64-bit signed range by [wrapInt].
    - A Go map is a [gmap]; a nil pointer, nil map or nil interface is [None].
    - A function that performs network I/O, sleeps or may dereference nil
      runs in the monad [M]: it threads the trace of effects performed so
      far and ends in [Returned], [Panicked] or (for the retry loop, which
      is given fuel) [OutOfFuel].
    - [logrus.Debug] calls do not influence control flow and are left out. *)

From Stdlib Require Import ZArith Ascii String List Lia Bool.
From stdpp Require Import base tactics option gmap strings list fin_maps pretty.

Local Open Scope string_scope.
Local Open Scope list_scope.
Local Open Scope Z_scope.

(** ** Go standard library: strings and bytes *)

Module GoStrings.

Definition dquote : ascii := ascii_of_nat 34.
Definition newline : ascii := ascii_of_nat 10.

(** [strings.HasPrefix s prefix]. *)
Fixpoint HasPrefix (s prefix : string) {struct prefix} : bool :=
  match prefix with
  | EmptyString => true
  | String p prefix' =>
      match s with
      | EmptyString => false
      | String c s' => if Ascii.eqb c p then HasPrefix s' prefix' else false
      end
  end.

(** [strings.Contains s substr]: [substr] occurs in [s] at some offset. *)
Fixpoint Contains (s substr : string) : bool :=
  if HasPrefix s substr then true
  else match s with
       | EmptyString => false
       | String _ s' => Contains s' substr
       end.

(** [len(s) == 0]. *)
Definition isEmpty (s : string) : bool :=
  match s with EmptyString => true | _ => false end.

End GoStrings.

(** ** Go standard library: net/textproto canonical header keys *)

Module Textproto.

Definition byteOf (c : ascii) : N := N_of_ascii c.

Definition isLower (c : ascii) : bool := ((97 <=? byteOf c) && (byteOf c <=? 122))%N.
Definition isUpper (c : ascii) : bool := ((65 <=? byteOf c) && (byteOf c <=? 90))%N.
Definition isDigit (c : ascii) : bool := ((48 <=? byteOf c) && (byteOf c <=? 57))%N.

(** [validHeaderFieldByte]: the RFC 7230 token characters. *)
Definition validHeaderFieldByte (c : ascii) : bool :=
  isLower c || isUpper c || isDigit c ||
  existsb (N.eqb (byteOf c)) [33; 35; 36; 37; 38; 39; 42; 43; 45; 46; 94; 95; 96; 124; 126]%N.

Fixpoint allValid (s : string) : bool :=
  match s with
  | EmptyString => true
  | String c s' => validHeaderFieldByte c && allValid s'
  end.

(** The rewriting loop of [canonicalMIMEHeaderKey]: upper-case the first
    letter and every letter after a dash, lower-case the others. *)
Fixpoint canonLoop (upper : bool) (s : string) : string :=
  match s with
  | EmptyString => EmptyString
  | String c s' =>
      let c' :=
        if upper && isLower c then ascii_of_N (byteOf c - 32)
        else if negb upper && isUpper c then ascii_of_N (byteOf c + 32)
        else c in
      String c' (canonLoop (Ascii.eqb c' "-") s')
  end.

(** [textproto.CanonicalMIMEHeaderKey]: a key holding a byte that is not
    a token character is returned unchanged. *)
Definition CanonicalMIMEHeaderKey (s : string) : string :=
  if allValid s then canonLoop true s else s.

End Textproto.

(** ** Go standard library: strconv.Atoi on a 64-bit platform *)

Module Strconv.

Inductive numError := ErrSyntax | ErrRange.

Definition maxUint64 : Z := 2 ^ 64 - 1.
Definition maxInt : Z := 2 ^ 63 - 1.
Definition minInt : Z := - 2 ^ 63.

Definition digitOf (c : ascii) : option Z :=
  if Textproto.isDigit c then Some (Z.of_N (Textproto.byteOf c) - 48) else None.

(** The digit loop of [ParseUint s 10 64]. A byte that is not a decimal
    digit ends the scan with a syntax error and 0; an overflow ends it on
    the spot with a range error and the largest value, whatever bytes
    follow. *)
Fixpoint parseUintLoop (s : string) (n : Z) : Z * option numError :=
  match s with
  | EmptyString => (n, None)
  | String c s' =>
      match digitOf c with
      | None => (0, Some ErrSyntax)
      | Some d =>
          if maxUint64 / 10 + 1 <=? n then (maxUint64, Some ErrRange)
          else
            let n1 := n * 10 + d in
            if maxUint64 <? n1 then (maxUint64, Some ErrRange)
            else parseUintLoop s' n1
      end
  end.

Definition ParseUint (s : string) : Z * option numError :=
  match s with
  | EmptyString => (0, Some ErrSyntax)
  | _ => parseUintLoop s 0
  end.

(** [ParseInt s 10 64]: an optional sign, then [ParseUint]; an
    out-of-range value is clamped to the nearest bound. *)
Definition ParseInt (s : string) : Z * option numError :=
  match s with
  | EmptyString => (0, Some ErrSyntax)
  | String c s' =>
      let neg := Ascii.eqb c "-" in
      let digits := if Ascii.eqb c "+" || neg then s' else s in
      let '(un, err) := ParseUint digits in
      match err with
      | Some ErrSyntax => (0, Some ErrSyntax)
      | _ =>
          let cutoff := 2 ^ 63 in
          if negb neg && (cutoff <=? un) then (cutoff - 1, Some ErrRange)
          else if neg && (cutoff <? un) then (- cutoff, Some ErrRange)
          else (if neg then - un else un, None)
      end
  end.

(** [strconv.Atoi] is [ParseInt s 10 0] converted to [int]. *)
Definition Atoi (s : string) : Z * option numError := ParseInt s.

End Strconv.

(** ** Go standard library: the regexp fragment used by the proxy probe *)

Module Regexp.

(** The pattern of [tryProxy] uses literal bytes, the greedy [.*] and one
    capture group. *)
Inductive item :=
| Lit (c : ascii)
| DotStar
| GroupOpen
| GroupClose.

Fixpoint lits (s : string) : list item :=
  match s with
  | EmptyString => []
  | String c s' => Lit c :: lits s'
  end.

(** Match [pat] against a prefix of [s], which starts at offset [pos] of
    the input; greedy alternatives are tried first, as leftmost-first
    matching prescribes. The result is the end offset and the offsets of
    the group. [.] does not match a newline. *)
Fixpoint matchHere (pat : list item) (s : string) (pos : nat) (g : nat * nat)
  : option (nat * (nat * nat)) :=
  match pat with
  | [] => Some (pos, g)
  | Lit c :: pat' =>
      match s with
      | String c' s' => if Ascii.eqb c c' then matchHere pat' s' (S pos) g else None
      | EmptyString => None
      end
  | GroupOpen :: pat' => matchHere pat' s pos (pos, snd g)
  | GroupClose :: pat' => matchHere pat' s pos (fst g, pos)
  | DotStar :: pat' =>
      (fix star (s : string) (pos : nat) {struct s} :=
         match s with
         | String c s' =>
             if Ascii.eqb c GoStrings.newline then matchHere pat' s pos g
             else match star s' (S pos) with
                  | Some r => Some r
                  | None => matchHere pat' s pos g
                  end
         | EmptyString => matchHere pat' s pos g
         end) s pos
  end.

(** The leftmost start offset at which [pat] matches. *)
Fixpoint search (pat : list item) (s : string) (pos : nat)
  : option (nat * (nat * (nat * nat))) :=
  match matchHere pat s pos (0%nat, 0%nat) with
  | Some (e, g) => Some (pos, (e, g))
  | None =>
      match s with
      | EmptyString => None
      | String _ s' => search pat s' (S pos)
      end
  end.

Definition slice (s : string) (from to : nat) : string :=
  substring from (to - from) s.

(** [re.FindSubmatch(data)]: the whole match and the group, or nil. *)
Definition FindSubmatch (pat : list item) (data : string) : list string :=
  match search pat data 0 with
  | Some (b, (e, (gb, ge))) => [slice data b e; slice data gb ge]
  | None => []
  end.

End Regexp.

(** ** Errors *)

(** A Go [error] value: one made by [errors.New] or [fmt.Errorf], a library
    error that may carry a [Timeout() bool] method, or a [*url.Error]
    wrapping another error. *)
Inductive error :=
| errorString (msg : string)
| libError (msg : string) (timeout : option bool)
| urlError (msg : string) (Err : error).

(** [err.Error()]. *)
Definition Error (e : error) : string :=
  match e with
  | errorString msg => msg
  | libError msg _ => msg
  | urlError msg _ => msg
  end.

(** [t, ok := e.(timeout); ok && t.Timeout()]; a [*url.Error] answers
    for the error it wraps. *)
Fixpoint timeoutOf (e : error) : bool :=
  match e with
  | errorString _ => false
  | libError _ (Some b) => b
  | libError _ None => false
  | urlError _ inner => timeoutOf inner
  end.

Definition isTimeout (err : error) : bool :=
  let e := match err with
           | urlError _ inner => inner
           | _ => err
           end in
  timeoutOf e.

(** ** Data model *)

Abbreviation Header := (gmap string (list string)).

(** A response body stream: what [ioutil.ReadAll] yields from it. *)
Record ReadCloser := {
  content : string;
  readErr : option error;
}.

Definition ReadAll (b : ReadCloser) : string * option error :=
  (content b, readErr b).

(** [*url.URL], the fields the client touches. *)
Record URL := {
  Scheme : string;
  Host : string;
  Path : string;
  RawQuery : string;
}.

(** [*http.Request]. *)
Record Request := {
  Method : string;
  ReqURL : URL;
  ReqHeader : Header;
  ReqBody : option string;
}.

(** [*http.Response]. *)
Record Response := {
  StatusCode : Z;
  RespHeader : Header;
  RespBody : ReadCloser;
}.

(** [serverResponse], the envelope handed to the callers. *)
Record serverResponse := {
  body : option ReadCloser;
  header : option Header;
  statusCode : Z;
}.

(** [Client], the fields read by request.go. *)
Record Client := {
  scheme : string;
  transportScheme : string;
  addr : string;
  version : string;
  customHTTPHeaders : gmap string string;
}.

(** Header methods of net/http. *)
Definition HeaderSet (k v : string) (h : Header) : Header :=
  <[Textproto.CanonicalMIMEHeaderKey k := [v]]> h.

Definition HeaderGet (k : string) (h : Header) : string :=
  match h !! Textproto.CanonicalMIMEHeaderKey k with
  | Some (v :: _) => v
  | _ => ""
  end.

Definition HeaderDel (k : string) (h : Header) : Header :=
  delete (Textproto.CanonicalMIMEHeaderKey k) h.

Definition withHeader (h : Header) (r : Request) : Request :=
  {| Method := Method r; ReqURL := ReqURL r; ReqHeader := h; ReqBody := ReqBody r |}.

Definition withURL (u : URL) (r : Request) : Request :=
  {| Method := Method r; ReqURL := u; ReqHeader := ReqHeader r; ReqBody := ReqBody r |}.

(** What lies outside request.go: functions of the Go standard library
    that are taken as they are, the path builder of client.go and the
    sentinel of errors.go. *)
Class Externals := {
  (** [cli.getAPIPath(path, query)] *)
  getAPIPath : Client -> string -> Header -> string;
  (** [http.NewRequest(method, urlStr, body)]: a request, or the error
      for a method or URL it rejects *)
  http_NewRequest : string -> string -> option string -> Request + error;
  (** [u.String()] *)
  URL_String : URL -> string;
  (** [http.StatusText(code)] *)
  http_StatusText : Z -> string;
  (** [bytes.TrimSpace(b)] *)
  bytes_TrimSpace : string -> string;
  (** [ErrConnectionFailed] *)
  ErrConnectionFailed : error;
}.

(** ** Effects *)

Inductive event :=
| EvAttempt                 (** the dispatcher enters the single-attempt sender *)
| EvProbe                   (** the dispatcher enters the proxy unlock probe *)
| EvDo (req : Request)      (** [cli.httpClient.Do(req)] *)
| EvGet (url : string)      (** [http.Get(url)] *)
| EvSleep (seconds : Z).    (** [time.Sleep] *)

Abbreviation trace := (list event).

(** The process environment and the network, which answers a request
    from what has happened so far. *)
Record World := {
  environ : gmap string string;
  roundTrip : trace -> Request -> option Response * option error;
  plainGet : trace -> string -> option Response * option error;
}.

Inductive outcome (A : Type) :=
| Returned (a : A) (t : trace)
| Panicked (t : trace)
| OutOfFuel (t : trace).
Arguments Returned {A} a t.
Arguments Panicked {A} t.
Arguments OutOfFuel {A} t.

Definition traceOf {A} (o : outcome A) : trace :=
  match o with
  | Returned _ t => t
  | Panicked t => t
  | OutOfFuel t => t
  end.

Definition M (A : Type) : Type := trace -> outcome A.

#[global] Instance M_ret : MRet M := fun A a t => Returned a t.

#[global] Instance M_bind : MBind M := fun A B f m t =>
  match m t with
  | Returned a t' => f a t'
  | Panicked t' => Panicked t'
  | OutOfFuel t' => OutOfFuel t'
  end.

Definition emit (e : event) : M unit := fun t => Returned tt (t ++ [e]).

(** A nil-pointer dereference is a run-time panic. *)
Definition deref {A} (p : option A) : M A :=
  match p with
  | Some a => mret a
  | None => fun t => Panicked t
  end.

Definition outOfFuel {A} : M A := fun t => OutOfFuel t.

(** ** request.go *)

Section RequestGo.

Context {ext : Externals}.
Variable w : World.

(** [os.Getenv]: the empty string when the variable is unset. *)
Definition os_Getenv (k : string) : string := default "" (environ w !! k).

(** [syscall.Getenv]: the value and whether the variable is set. *)
Definition syscall_Getenv (k : string) : option string := environ w !! k.

Definition http_Do (req : Request) : M (option Response * option error) :=
  fun t => Returned (roundTrip w t req) (t ++ [EvDo req]).

Definition http_Get (url : string) : M (option Response * option error) :=
  fun t => Returned (plainGet w t url) (t ++ [EvGet url]).

Definition time_Sleep (seconds : Z) : M unit := emit (EvSleep seconds).

Definition nl : string := String GoStrings.newline EmptyString.

(** Lines 197-217. *)
Definition newRequest (cli : Client) (method path : string) (query : Header)
    (body : option string) (headers : option Header)
  : option Request * option error :=
  let apiPath := getAPIPath cli path query in
  match http_NewRequest method apiPath body with
  | inr err => (None, Some err)
  | inl req =>
      let h := map_fold (fun k v h => HeaderSet k v h) (ReqHeader req)
                        (customHTTPHeaders cli) in
      let h := match headers with
               | Some hs => map_fold (fun k v h => <[k := v]> h) h hs
               | None => h
               end in
      (Some (withHeader h req), None)
  end.

(** Lines 138, 144-159: what happens to the built request before it is
    sent. *)
Definition expectsPayload (method : string) : bool :=
  String.eqb method "POST" || String.eqb method "PUT".

(** Lines 139-141: a POST or PUT without a body gets an empty one. *)
Definition payload (method : string) (body : option string) : option string :=
  if expectsPayload method && bool_decide (body = None) then Some "" else body.

Definition prepare (cli : Client) (method : string) (req : Request) : Request :=
  let u := ReqURL req in
  let req := withURL {| Scheme := scheme cli; Host := addr cli;
                        Path := Path u; RawQuery := RawQuery u |} req in
  let req :=
    if expectsPayload method
       && String.eqb (HeaderGet "Content-Type" (ReqHeader req)) ""
    then withHeader (HeaderSet "Content-Type" "text/plain" (ReqHeader req)) req
    else req in
  match syscall_Getenv "DOCKER_USER_AGENT" with
  | Some userAgent =>
      if GoStrings.isEmpty userAgent
      then withHeader (HeaderDel "User-Agent" (ReqHeader req)) req
      else withHeader (HeaderSet "User-Agent" userAgent (ReqHeader req)) req
  | None => req
  end.

(** Lines 166-179: the error returned for a transport error. *)
Definition transportError (cli : Client) (err : error) : error :=
  if isTimeout err
     || GoStrings.Contains (Error err) "connection refused"
     || GoStrings.Contains (Error err) "dial unix"
  then ErrConnectionFailed
  else if String.eqb (scheme cli) "http"
          && GoStrings.Contains (Error err) "malformed HTTP response"
  then errorString (Error err +:+ "." +:+ nl
         +:+ "* Are you trying to connect to a TLS-enabled daemon without TLS?")
  else if String.eqb (scheme cli) "https"
          && GoStrings.Contains (Error err) "remote error: bad certificate"
  then errorString
         ("The server probably has client authentication (--tlsverify) enabled. Please check your TLS client certification settings: "
          +:+ Error err)
  else errorString ("An error occurred trying to connect: " +:+ Error err).

(** Lines 162-194: from the answer of the transport to the envelope. *)
Definition conclude (cli : Client) (req : Request)
    (resp : option Response) (err : option error)
  : M (serverResponse * option error) :=
  let serverResp :=
    {| body := None; header := None;
       statusCode := match resp with
                     | Some r => StatusCode r
                     | None => -1
                     end |} in
  match err with
  | Some e => mret (serverResp, Some (transportError cli e))
  | None =>
      if (statusCode serverResp <? 200) || (400 <=? statusCode serverResp) then
        r ← deref resp;
        let '(data, rerr) := ReadAll (RespBody r) in
        match rerr with
        | Some e => mret (serverResp, Some e)
        | None =>
            if GoStrings.isEmpty data then
              mret (serverResp, Some (errorString
                ("Error: request returned "
                 +:+ http_StatusText (statusCode serverResp)
                 +:+ " for API route and version "
                 +:+ URL_String (ReqURL req)
                 +:+ ", check if the server supports the requested API version")))
            else
              mret (serverResp, Some (errorString
                ("Error response from daemon: " +:+ bytes_TrimSpace data)))
        end
      else
        r ← deref resp;
        mret ({| body := Some (RespBody r); header := Some (RespHeader r);
                 statusCode := statusCode serverResp |}, None)
  end.

(** Lines 132-195. The result of [newRequest] is used without looking at
    its error: a nil request is dereferenced at line 144. *)
Definition doSendClientRequest (cli : Client) (method path : string)
    (query : Header) (body : option string) (headers : option Header)
  : M (serverResponse * option error) :=
  let body := payload method body in
  let '(req, _) := newRequest cli method path query body headers in
  req ← deref req;
  let req := prepare cli method req in
  '(resp, err) ← http_Do req;
  conclude cli req resp err.

(** The pattern compiled at line 95: dot-star, a double quote, the group
    [http://.*http://.*], a double quote, dot-star. *)
Definition proxyPattern : list Regexp.item :=
  [Regexp.DotStar; Regexp.Lit GoStrings.dquote; Regexp.GroupOpen]
  ++ Regexp.lits "http://" ++ [Regexp.DotStar]
  ++ Regexp.lits "http://" ++ [Regexp.DotStar; Regexp.GroupClose]
  ++ [Regexp.Lit GoStrings.dquote; Regexp.DotStar].

(** Lines 83-107. The error of the second [http.Get] is dropped and its
    response is used all the same. *)
Definition proxyUrl (cli : Client) : string :=
  transportScheme cli +:+ "://" +:+ addr cli +:+ "/v" +:+ version cli +:+ "/info".

Definition tryProxy (cli : Client) : M (option error) :=
  '(proxyResp, err) ← http_Get (proxyUrl cli);
  match err with
  | Some e => mret (Some e)
  | None =>
      proxyResp ← deref proxyResp;
      let unhandled :=
        Some (errorString ("can not handle status code"
                           +:+ pretty (StatusCode proxyResp))) in
      if StatusCode proxyResp =? 403 then
        let '(data, _) := ReadAll (RespBody proxyResp) in
        let matches := Regexp.FindSubmatch proxyPattern data in
        if (2 <=? length matches)%nat then
          '(resp, _) ← http_Get (nth 1 matches "");
          _ ← deref resp;
          mret None
        else mret unhandled
      else mret unhandled
  end.

(** Go's [int] arithmetic (64 bits, two's complement). *)
Definition wrapInt (z : Z) : Z := (z + 2 ^ 63) mod 2 ^ 64 - 2 ^ 63.

Definition retryable (status : Z) : bool :=
  (status =? 407) || (status =? 403) || (status =? -1).

(** The loop of lines 115-128, from the test [try <= retries] on. Each
    iteration uses one unit of fuel. The body is a value here and every
    attempt is handed the same one; the code passes one [io.Reader], which
    the first send drains, so nothing below speaks of the body of a later
    attempt. *)
Fixpoint retryLoop (fuel : nat) (cli : Client) (method path : string)
    (query : Header) (body : option string) (headers : option Header)
    (retries try : Z) (resp : option serverResponse) (err : option error)
  : M (option serverResponse * option error) :=
  if try <=? retries then
    match fuel with
    | O => outOfFuel
    | S fuel' =>
        _ ← emit EvAttempt;
        '(r, e) ← doSendClientRequest cli method path query body headers;
        match e with
        | None => mret (Some r, None)
        | Some _ =>
            if retryable (statusCode r) then
              _ ← emit EvProbe;
              _ ← tryProxy cli;
              _ ← time_Sleep 1;
              retryLoop fuel' cli method path query body headers
                        retries (wrapInt (try + 1)) (Some r) e
            else mret (Some r, e)
        end
    end
  else mret (resp, err).

(** The retry budget: [strconv.Atoi(os.Getenv("DOCKER_HTTP_RETRY"))] with
    the error dropped. *)
Definition retryBudget : Z := fst (Strconv.Atoi (os_Getenv "DOCKER_HTTP_RETRY")).

(** Lines 109-130. The call at line 116 passes a [ctx] that the callee
    does not take; it is left out. *)
Definition sendClientRequest (fuel : nat) (cli : Client) (method path : string)
    (query : Header) (body : option string) (headers : option Header)
  : M (option serverResponse * option error) :=
  let retries := retryBudget in
  retryLoop fuel cli method path query body headers retries 0
            None (Some (errorString "no requests made")).

End RequestGo.

(** ** A concrete setting: library stand-ins, a client and some networks *)

Module Demo.

Definition isSpace (c : ascii) : bool :=
  existsb (N.eqb (N_of_ascii c)) [9; 10; 11; 12; 13; 32]%N.

Fixpoint trimLeft (s : string) : string :=
  match s with
  | String c s' => if isSpace c then trimLeft s' else s
  | EmptyString => EmptyString
  end.

Fixpoint trimRight (s : string) : string :=
  match s with
  | String c s' =>
      match trimRight s' with
      | EmptyString => if isSpace c then EmptyString else String c EmptyString
      | r => String c r
      end
  | EmptyString => EmptyString
  end.

Definition isControl (c : ascii) : bool :=
  ((N_of_ascii c <? 32) || (N_of_ascii c =? 127))%N.

Fixpoint hasControl (s : string) : bool :=
  match s with
  | String c s' => isControl c || hasControl s'
  | EmptyString => false
  end.

Definition statusText (code : Z) : string :=
  if code =? 200 then "OK"
  else if code =? 302 then "Found"
  else if code =? 403 then "Forbidden"
  else if code =? 404 then "Not Found"
  else if code =? 407 then "Proxy Authentication Required"
  else if code =? 500 then "Internal Server Error"
  else "".

(** net/http rejects a method that is not a token and a URL holding a
    control byte. *)
Definition newRequestOf (method urlStr : string) (body : option string)
  : Request + error :=
  if negb (Textproto.allValid method) then
    inr (errorString ("net/http: invalid method " +:+ method))
  else if hasControl urlStr then
    inr (errorString "net/url: invalid control character in URL")
  else
    inl {| Method := method;
           ReqURL := {| Scheme := ""; Host := ""; Path := urlStr; RawQuery := "" |};
           ReqHeader := ∅;
           ReqBody := body |}.

#[export] Instance ext : Externals := {|
  getAPIPath := fun cli p _ => "/v" +:+ version cli +:+ p;
  http_NewRequest := newRequestOf;
  URL_String := fun u => Scheme u +:+ "://" +:+ Host u +:+ Path u;
  http_StatusText := statusText;
  bytes_TrimSpace := fun s => trimRight (trimLeft s);
  ErrConnectionFailed :=
    errorString "Cannot connect to the Docker daemon. Is the docker daemon running on this host?";
|}.

Definition cli : Client := {|
  scheme := "http";
  transportScheme := "http";
  addr := "daemon:2375";
  version := "1.22";
  customHTTPHeaders := {[ "User-Agent" := "Docker-Client/1.10" ]};
|}.


Definition respond (code : Z) (text : string) : option Response * option error :=
  (Some {| StatusCode := code; RespHeader := ∅;
           RespBody := {| content := text; readErr := None |} |}, None).

Definition refused : option Response * option error :=
  (None, Some (libError "dial tcp: connection refused" (Some false))).

Definition env (retry : option string) (ua : option string) : gmap string string :=
  let e := match retry with
           | Some r => {[ "DOCKER_HTTP_RETRY" := r ]}
           | None => ∅
           end in
  match ua with
  | Some u => <[ "DOCKER_USER_AGENT" := u ]> e
  | None => e
  end.

(** A daemon that answers every request with [code] and [text]; the
    diagnostic endpoint is unreachable. *)
Definition daemon (retry ua : option string) (code : Z) (text : string) : World := {|
  environ := env retry ua;
  roundTrip := fun _ _ => respond code text;
  plainGet := fun _ _ => refused;
|}.

(** The body an intercepting proxy returns: a quoted URL that embeds a
    second one. *)
Definition portalBody : string :=
  "Blocked. Open " +:+ String GoStrings.dquote
    ("http://portal/login?url=http://daemon:2375/" +:+ String GoStrings.dquote " to continue").

(** An intercepting proxy: every request and the diagnostic call get a
    403 carrying [portalBody]; the portal itself cannot be reached. *)
Definition captive (retry : option string) : World := {|
  environ := env retry None;
  roundTrip := fun _ _ => respond 403 portalBody;
  plainGet := fun _ url =>
    if String.eqb url "http://daemon:2375/v1.22/info"
    then respond 403 portalBody else refused;
|}.

(** A proxy whose diagnostic endpoint is down: every request gets a 403,
    the probe's first call fails. *)
Definition blocked (retry : option string) : World := {|
  environ := env retry None;
  roundTrip := fun _ _ => respond 403 "Forbidden";
  plainGet := fun _ _ => refused;
|}.

(** A redirect loop: the transport gives up and returns the last
    response together with its error. *)
Definition redirectLoop : World := {|
  environ := ∅;
  roundTrip := fun _ _ =>
    (Some {| StatusCode := 302; RespHeader := ∅;
             RespBody := {| content := ""; readErr := None |} |},
     Some (urlError "Get http://daemon:2375/v1.22/info: stopped after 10 redirects"
             (errorString "stopped after 10 redirects")));
  plainGet := fun _ _ => refused;
|}.

(** The daemon is not listening. *)
Definition down : World := {|
  environ := ∅;
  roundTrip := fun _ _ => refused;
  plainGet := fun _ _ => refused;
|}.

Definition sent (t : trace) : nat :=
  length (List.filter (fun e => match e with EvDo _ => true | _ => false end) t).

(** A proxy that lets the third request through: the answers are 403,
    407, then 200. *)
Definition unlocking (retry : option string) : World := {|
  environ := env retry None;
  roundTrip := fun t _ =>
    match sent t with
    | O => respond 403 "Forbidden"
    | S O => respond 407 "Proxy Authentication Required"
    | _ => respond 200 "[]"
    end;
  plainGet := fun _ _ => refused;
|}.

Definition emptyRequest : Request := {|
  Method := "";
  ReqURL := {| Scheme := ""; Host := ""; Path := ""; RawQuery := "" |};
  ReqHeader := ∅;
  ReqBody := None;
|}.

(** The request [newRequest] builds for [cli]. *)
Definition request (method path : string) (headers : option Header) : Request :=
  default emptyRequest
    (fst (newRequest cli method path ∅ (payload method None) headers)).

End Demo.


(** ** Reading a trace *)

(** The steps the dispatcher itself takes: entering an attempt, entering
    the probe, sleeping. *)
Definition isStep (e : event) : bool :=
  match e with
  | EvAttempt | EvProbe | EvSleep _ => true
  | EvDo _ | EvGet _ => false
  end.

Definition steps (t : trace) : trace := List.filter isStep t.

Definition isAttempt (e : event) : bool :=
  match e with EvAttempt => true | _ => false end.

Definition attempts (t : trace) : nat := length (List.filter isAttempt (steps t)).

(** One full round of the retry loop. *)
Definition round : trace := [EvAttempt; EvProbe; EvSleep 1].

Definition inSuccessRange (status : Z) : Prop := 200 <= status < 400.

Definition panicked {A} (o : outcome A) : bool :=
  match o with Panicked _ => true | _ => false end.

(** ** request.go: the verb helpers *)

Module Verbs.
Section Verbs.

Context {ext : Externals}.
Variable w : World.

(** What callers pass as a request body (an [interface{}]) and
    [json.NewEncoder(buf).Encode(data)]: the bytes it writes, or its
    error. *)
Variable Any : Type.
Variable json_Encode : Any -> string + error.

(** Lines 219-227: a nil [data] gives an empty buffer, not a nil one. *)
Definition encodeData (data : option Any) : option string * option error :=
  match data with
  | Some v =>
      match json_Encode v with
      | inr err => (None, Some err)
      | inl bytes => (Some bytes, None)
      end
  | None => (Some "", None)
  end.

(** Lines 67-81. A nil [headers] is replaced by a fresh map; a non-nil one
    is the caller's own map, which the assignment updates. *)
Definition sendRequest (fuel : nat) (cli : Client) (method path : string)
    (query : Header) (body : option Any) (headers : option Header)
  : M (option serverResponse * option error) :=
  let '(params, err) := encodeData body in
  match err with
  | Some e => mret (None, Some e)
  | None =>
      let headers :=
        match body with
        | Some _ => Some (<["Content-Type" := ["application/json"]]> (default ∅ headers))
        | None => headers
        end in
      sendClientRequest w fuel cli method path query params headers
  end.

(** Lines 32-65. *)
Definition head (fuel : nat) (cli : Client) (path : string) (query : Header)
    (headers : option Header) :=
  sendRequest fuel cli "HEAD" path query None headers.

Definition get (fuel : nat) (cli : Client) (path : string) (query : Header)
    (headers : option Header) :=
  sendRequest fuel cli "GET" path query None headers.

Definition post (fuel : nat) (cli : Client) (path : string) (query : Header)
    (body : option Any) (headers : option Header) :=
  sendRequest fuel cli "POST" path query body headers.

Definition postRaw (fuel : nat) (cli : Client) (path : string) (query : Header)
    (body : option string) (headers : option Header) :=
  sendClientRequest w fuel cli "POST" path query body headers.

Definition put (fuel : nat) (cli : Client) (path : string) (query : Header)
    (body : option Any) (headers : option Header) :=
  sendRequest fuel cli "PUT" path query body headers.

Definition putRaw (fuel : nat) (cli : Client) (path : string) (query : Header)
    (body : option string) (headers : option Header) :=
  sendClientRequest w fuel cli "PUT" path query body headers.

Definition delete (fuel : nat) (cli : Client) (path : string) (query : Header)
    (headers : option Header) :=
  sendRequest fuel cli "DELETE" path query None headers.

End Verbs.
End Verbs.

(** ** registry/config_unix.go *)

Module Registry.

Definition DefaultV1Registry : string := "https://index.docker.io".
Definition DefaultV2Registry : string := "https://registry-1.docker.io".

(** Lines 23-29. *)
Definition certsDir (w : World) : string :=
  let path := os_Getenv w "DOCKER_REGISTRY_CERTS_PATH" in
  if GoStrings.isEmpty path then "/etc/docker/certs.d" else path.

(** Lines 35-37. *)
Definition cleanPath (s : string) : string := s.

End Registry.

(** ** Reading a trace, continued *)

(** A request put on the wire goes to the client's address under the
    client's scheme. *)
Definition sentToDaemon (cli : Client) (e : event) : Prop :=
  match e with
  | EvDo req => Scheme (ReqURL req) = scheme cli /\ Host (ReqURL req) = addr cli
  | _ => True
  end.

(** How the dispatcher's steps can end after whole rounds: nothing more,
    a last attempt, or a last attempt and a probe that does not come
    back. *)
Definition isTail (tail : trace) : Prop :=
  tail = [] \/ tail = [EvAttempt] \/ tail = [EvAttempt; EvProbe].

(** A value to encode, for the examples: strings encode, channels do
    not. *)
Module DemoVerbs.

Inductive value :=
| VString (s : string)
| VChan.

Definition encode (v : value) : string + error :=
  match v with
  | VString s =>
      inl (String GoStrings.dquote s +:+ String GoStrings.dquote nl)
  | VChan => inr (errorString "json: unsupported type: chan int")
  end.

(** A captive portal that can be reached: the diagnostic call gets the
    403 with [portalBody], the portal answers 200. *)
Definition portal : World := {|
  environ := ∅;
  roundTrip := fun _ _ => Demo.respond 403 Demo.portalBody;
  plainGet := fun _ url =>
    if String.eqb url "http://daemon:2375/v1.22/info"
    then Demo.respond 403 Demo.portalBody else Demo.respond 200 "welcome";
|}.

(** A daemon whose error answer breaks off while it is read. *)
Definition brokenBody : World := {|
  environ := ∅;
  roundTrip := fun _ _ =>
    (Some {| StatusCode := 500; RespHeader := ∅;
             RespBody := {| content := "inter";
                            readErr := Some (errorString "unexpected EOF") |} |}, None);
  plainGet := fun _ _ => Demo.refused;
|}.

End DemoVerbs.

(** * Properties *)

(** ** The library models on small inputs *)

Example Atoi_3 : Strconv.Atoi "3" = (3, None).
Proof. reflexivity. Qed.

Example Atoi_negative : Strconv.Atoi "-12" = (-12, None).
Proof. reflexivity. Qed.

Example Atoi_garbage : Strconv.Atoi "two" = (0, Some Strconv.ErrSyntax).
Proof. reflexivity. Qed.

Example Atoi_unset : Strconv.Atoi "" = (0, Some Strconv.ErrSyntax).
Proof. reflexivity. Qed.

Example Atoi_largest : Strconv.Atoi "9223372036854775807" = (Strconv.maxInt, None).
Proof. reflexivity. Qed.

Example Atoi_clamped :
  Strconv.Atoi "9223372036854775808" = (Strconv.maxInt, Some Strconv.ErrRange).
Proof. reflexivity. Qed.

Example canonical_user_agent :
  Textproto.CanonicalMIMEHeaderKey "user-agent" = "User-Agent".
Proof. reflexivity. Qed.

Example canonical_invalid_unchanged :
  Textproto.CanonicalMIMEHeaderKey "x foo" = "x foo".
Proof. reflexivity. Qed.

Example contains_refused :
  GoStrings.Contains "dial tcp 10.0.0.1:2375: connection refused" "connection refused" = true.
Proof. reflexivity. Qed.

Example portal_url_extracted :
  nth 1 (Regexp.FindSubmatch proxyPattern Demo.portalBody) ""
  = "http://portal/login?url=http://daemon:2375/".
Proof. reflexivity. Qed.

Example no_url_no_match :
  Regexp.FindSubmatch proxyPattern "403 Forbidden" = [].
Proof. reflexivity. Qed.

(** ** Strings *)

Lemma append_empty_l (s : string) : "" +:+ s = s.
Proof. reflexivity. Qed.

Lemma append_String (c : ascii) (a b : string) : String c a +:+ b = String c (a +:+ b).
Proof. reflexivity. Qed.

Lemma append_assoc (a b c : string) : (a +:+ b) +:+ c = a +:+ b +:+ c.
Proof.
  induction a as [|x a IH]; [reflexivity|].
  rewrite !append_String. now rewrite IH.
Qed.

Lemma HasPrefix_app (b c : string) : GoStrings.HasPrefix (b +:+ c) b = true.
Proof.
  induction b as [|x b IH]; [reflexivity|].
  rewrite append_String. simpl. now rewrite Ascii.eqb_refl.
Qed.

Lemma Contains_here (s b : string) : GoStrings.HasPrefix s b = true -> GoStrings.Contains s b = true.
Proof. intros H. destruct s; simpl in *; now rewrite H. Qed.

Lemma Contains_app (a b c : string) : GoStrings.Contains (a +:+ b +:+ c) b = true.
Proof.
  induction a as [|x a IH].
  - rewrite append_empty_l. apply Contains_here, HasPrefix_app.
  - rewrite append_String. simpl.
    destruct (GoStrings.HasPrefix _ b); [reflexivity | exact IH].
Qed.

Lemma Contains_app_mid (a b c u t : string) :
  GoStrings.Contains (a +:+ b +:+ c +:+ u +:+ t) u = true.
Proof.
  rewrite <- (append_assoc b c (u +:+ t)), <- (append_assoc a (b +:+ c) (u +:+ t)).
  apply Contains_app.
Qed.

Lemma isEmpty_true (s : string) : GoStrings.isEmpty s = true <-> s = "".
Proof. destruct s; simpl; split; congruence. Qed.

Lemma canon_user_agent : Textproto.CanonicalMIMEHeaderKey "User-Agent" = "User-Agent".
Proof. reflexivity. Qed.

Lemma canon_content_type : Textproto.CanonicalMIMEHeaderKey "Content-Type" = "Content-Type".
Proof. reflexivity. Qed.

(** ** strconv.Atoi *)

Lemma parseUintLoop_syntax (s : string) (n v : Z) :
  Strconv.parseUintLoop s n = (v, Some Strconv.ErrSyntax) -> v = 0.
Proof.
  revert n. induction s as [|c s IH]; intros n; simpl.
  - congruence.
  - destruct (Strconv.digitOf c); [|congruence].
    destruct (_ <=? n); [congruence|].
    destruct (_ <? _); [congruence|]. apply IH.
Qed.

(** A value rejected for its syntax yields 0. *)
Lemma Atoi_syntax_zero (s : string) :
  snd (Strconv.Atoi s) = Some Strconv.ErrSyntax -> fst (Strconv.Atoi s) = 0.
Proof.
  unfold Strconv.Atoi, Strconv.ParseInt.
  destruct s as [|c s]; [reflexivity|].
  destruct (Strconv.ParseUint _) as [un [[]|]]; simpl; [reflexivity| |].
  - destruct (_ && _); [discriminate|]. destruct (_ && _); discriminate.
  - destruct (_ && _); [discriminate|]. destruct (_ && _); discriminate.
Qed.

(** Whatever the input, the result is an [int]. *)
Lemma parseUintLoop_range (s : string) (n : Z) :
  0 <= n <= Strconv.maxUint64 ->
  0 <= fst (Strconv.parseUintLoop s n) <= Strconv.maxUint64.
Proof.
  revert n. induction s as [|c s IH]; intros n Hn; simpl; [exact Hn|].
  unfold Strconv.digitOf. destruct (Textproto.isDigit c) eqn:Hd; simpl.
  2:{ unfold Strconv.maxUint64. simpl. lia. }
  destruct (_ <=? n); simpl; [unfold Strconv.maxUint64; lia|].
  destruct (_ <? _) eqn:Hlt; simpl; [unfold Strconv.maxUint64; lia|].
  apply IH. apply Z.ltb_ge in Hlt. split; [|exact Hlt].
  unfold Textproto.isDigit in Hd. apply andb_true_iff in Hd as [H1 H2].
  apply N.leb_le in H1. lia.
Qed.

Lemma Atoi_range (s : string) :
  Strconv.minInt <= fst (Strconv.Atoi s) <= Strconv.maxInt.
Proof.
  unfold Strconv.Atoi, Strconv.ParseInt, Strconv.minInt, Strconv.maxInt.
  destruct s as [|c s]; [simpl; lia|].
  match goal with |- context [Strconv.ParseUint ?d] => set (digits := d) end.
  clearbody digits.
  assert (Hr : 0 <= fst (Strconv.ParseUint digits) <= Strconv.maxUint64).
  { unfold Strconv.ParseUint. destruct digits.
    - simpl. unfold Strconv.maxUint64. lia.
    - apply parseUintLoop_range. unfold Strconv.maxUint64. lia. }
  destruct (Strconv.ParseUint digits) as [un err]. simpl in Hr.
  destruct err as [[]|]; simpl; try lia.
  - destruct (Ascii.eqb c "-"); simpl.
    + destruct (2 ^ 63 <? un) eqn:E; simpl; [lia|]. apply Z.ltb_ge in E. lia.
    + destruct (2 ^ 63 <=? un) eqn:E; simpl; [lia|]. apply Z.leb_gt in E. lia.
  - destruct (Ascii.eqb c "-"); simpl.
    + destruct (2 ^ 63 <? un) eqn:E; simpl; [lia|]. apply Z.ltb_ge in E. lia.
    + destruct (2 ^ 63 <=? un) eqn:E; simpl; [lia|]. apply Z.leb_gt in E. lia.
Qed.

(** ** The request builder *)

Section Builder.

Context {ext : Externals}.

Abbreviation canon := Textproto.CanonicalMIMEHeaderKey.

(** The overlay loop leaves every overlay entry in the header map. *)
Lemma overlay_lookup (hs h : Header) (k : string) (v : list string) :
  hs !! k = Some v ->
  map_fold (fun k v h => <[k := v]> h) h hs !! k = Some v.
Proof.
  revert k v.
  apply (map_fold_weak_ind
           (fun (r : Header) (m : Header) =>
              forall k v, m !! k = Some v -> r !! k = Some v)).
  - intros k v H. rewrite lookup_empty in H. discriminate.
  - intros i x m r Hi IH k v H.
    destruct (decide (i = k)) as [->|Hne].
    + rewrite lookup_insert_eq in H. rewrite lookup_insert_eq. exact H.
    + rewrite lookup_insert_ne in H by exact Hne.
      rewrite lookup_insert_ne by exact Hne. now apply IH.
Qed.

(** ... and touches no other entry. *)
Lemma overlay_other (hs h : Header) (k : string) :
  hs !! k = None ->
  map_fold (fun k v h => <[k := v]> h) h hs !! k = h !! k.
Proof.
  apply (map_fold_weak_ind
           (fun (r : Header) (m : Header) => m !! k = None -> r !! k = h !! k)).
  - reflexivity.
  - intros i x m r Hi IH H.
    destruct (decide (i = k)) as [->|Hne].
    + rewrite lookup_insert_eq in H. discriminate.
    + rewrite lookup_insert_ne in H by exact Hne.
      rewrite lookup_insert_ne by exact Hne. now apply IH.
Qed.

(** The loop over the client's headers: an entry of the result under a
    canonical key comes from a client header with that canonical key, if
    there is one, and from the request as built otherwise. *)
Lemma custom_lookup (custom : gmap string string) (h : Header) (K : string) :
  let r := map_fold (fun k v h => HeaderSet k v h) h custom in
  (exists k c, custom !! k = Some c /\ canon k = K /\ r !! K = Some [c])
  \/ ((forall k c, custom !! k = Some c -> canon k <> K) /\ r !! K = h !! K).
Proof.
  cbv zeta.
  apply (map_fold_weak_ind
           (fun (r : Header) (m : gmap string string) =>
              (exists k c, m !! k = Some c /\ canon k = K /\ r !! K = Some [c])
              \/ ((forall k c, m !! k = Some c -> canon k <> K) /\ r !! K = h !! K))).
  - right. split; [|reflexivity]. intros k c H.
    rewrite lookup_empty in H. discriminate.
  - intros i x m r Hi IH. unfold HeaderSet.
    destruct (decide (canon i = K)) as [Heq|Hne].
    + left. exists i, x. rewrite lookup_insert_eq. split; [reflexivity|].
      split; [exact Heq|]. rewrite Heq, lookup_insert_eq. reflexivity.
    + rewrite lookup_insert_ne by exact Hne.
      destruct IH as [(k & c & Hk & Hc & Hr)|[Hall Hr]].
      * left. exists k, c. split; [|split; assumption].
        rewrite lookup_insert_ne; [exact Hk|]. intros ->. congruence.
      * right. split; [|exact Hr]. intros k c H.
        destruct (decide (i = k)) as [->|Hik]; [exact Hne|].
        rewrite lookup_insert_ne in H by exact Hik. now apply (Hall k c).
Qed.

(** [newRequest] hands the error of [http.NewRequest] on as it is, with
    a nil request. *)
Lemma newRequest_error (cli : Client) (method path : string) (query : Header)
    (body : option string) (headers : option Header) (e : error) :
  http_NewRequest method (getAPIPath cli path query) body = inr e ->
  newRequest cli method path query body headers = (None, Some e).
Proof. intros H. unfold newRequest. now rewrite H. Qed.

Lemma newRequest_some (cli : Client) (method path : string) (query : Header)
    (body : option string) (headers : option Header) (req : Request) :
  fst (newRequest cli method path query body headers) = Some req ->
  exists req0,
    http_NewRequest method (getAPIPath cli path query) body = inl req0
    /\ newRequest cli method path query body headers = (Some req, None)
    /\ ReqHeader req =
       let h := map_fold (fun k v h => HeaderSet k v h) (ReqHeader req0)
                         (customHTTPHeaders cli) in
       match headers with
       | Some hs => map_fold (fun k v h => <[k := v]> h) h hs
       | None => h
       end.
Proof.
  unfold newRequest.
  destruct (http_NewRequest _ _ _) as [req0|e]; simpl; [|discriminate].
  intros [= <-]. exists req0. repeat split.
Qed.


End Builder.

(** ** The single-attempt sender *)

Ltac run := unfold mbind, M_bind, mret, M_ret, deref, http_Do, http_Get,
                   time_Sleep, emit, outOfFuel; simpl.

Section Sender.

Context {ext : Externals}.
Variable w : World.
Variable cli : Client.
Variables method path : string.
Variable query : Header.
Variable data : option string.
Variable headers : option Header.

Abbreviation built :=
  (fst (newRequest cli method path query (payload method data) headers)).

Abbreviation attempt := (doSendClientRequest w cli method path query data headers).

(** With a request built, the attempt is one round trip followed by
    [conclude]. *)
Lemma attempt_built (req0 : Request) (t : trace) :
  built = Some req0 ->
  let req := prepare w cli method req0 in
  attempt t =
  conclude cli req (fst (roundTrip w t req)) (snd (roundTrip w t req)) (t ++ [EvDo req]).
Proof.
  intros H. unfold doSendClientRequest.
  destruct (newRequest _ _ _ _ _ _) as [r e]. simpl in H. subst r.
  run. destruct (roundTrip w t _) as [resp err]. reflexivity.
Qed.

(** Without one, the attempt dereferences nil before anything is sent. *)
Lemma attempt_unbuilt (t : trace) :
  built = None -> attempt t = Panicked t.
Proof.
  intros H. unfold doSendClientRequest.
  destruct (newRequest _ _ _ _ _ _) as [r e]. simpl in H. subst r.
  reflexivity.
Qed.

(** [conclude] performs no effect of its own. *)
Lemma conclude_trace (req : Request) (resp : option Response) (err : option error)
    (t : trace) :
  traceOf (conclude cli req resp err t) = t
  /\ (forall t', conclude cli req resp err t <> OutOfFuel t').
Proof.
  unfold conclude. destruct err as [e|]; run; [split; [reflexivity|discriminate]|].
  destruct resp as [r|]; simpl.
  - destruct (_ || _).
    + destruct (readErr (RespBody r)); [split; [reflexivity|discriminate]|].
      destruct (GoStrings.isEmpty _); split; try reflexivity; discriminate.
    + split; [reflexivity|discriminate].
  - split; [reflexivity|discriminate].
Qed.

(** What an attempt adds to the trace: nothing, or the one round trip. *)
Lemma attempt_trace (t : trace) :
  (exists l, traceOf (attempt t) = t ++ l /\ steps l = [])
  /\ (forall t', attempt t <> OutOfFuel t').
Proof.
  destruct built as [req0|] eqn:Hb.
  - rewrite (attempt_built req0 t Hb). cbv zeta.
    destruct (conclude_trace (prepare w cli method req0)
                (fst (roundTrip w t (prepare w cli method req0)))
                (snd (roundTrip w t (prepare w cli method req0)))
                (t ++ [EvDo (prepare w cli method req0)])) as [Ht Hf].
    split; [|exact Hf]. rewrite Ht. eexists. split; reflexivity.
  - rewrite (attempt_unbuilt t Hb). split; [|discriminate].
    exists []. now rewrite app_nil_r.
Qed.

(** The header entry that [prepare] leaves under [User-Agent]. *)
Lemma prepare_user_agent (req0 : Request) :
  ReqHeader (prepare w cli method req0) !! "User-Agent" =
  match environ w !! "DOCKER_USER_AGENT" with
  | Some "" => None
  | Some x => Some [x]
  | None => ReqHeader req0 !! "User-Agent"
  end.
Proof.
  unfold prepare, syscall_Getenv.
  set (r1 := if _ && _ then _ else _).
  assert (H1 : ReqHeader r1 !! "User-Agent" = ReqHeader req0 !! "User-Agent").
  { subst r1. destruct (_ && _); [|reflexivity].
    simpl. unfold HeaderSet. rewrite canon_content_type.
    now rewrite lookup_insert_ne. }
  destruct (environ w !! "DOCKER_USER_AGENT") as [ua|]; [|exact H1].
  destruct ua as [|c ua]; simpl.
  - unfold HeaderDel. rewrite canon_user_agent. apply lookup_delete_eq.
  - unfold HeaderSet. rewrite canon_user_agent. apply lookup_insert_eq.
Qed.

(** C9. For every attempt whose request is built, the request handed to
    the transport has no [User-Agent] entry when DOCKER_USER_AGENT is set
    to the empty string, has exactly the entry [X] when it is set to a
    non-empty [X], and keeps the entry of the built request (the
    client's default) when the variable is unset. *)
Theorem attempt_user_agent (req0 : Request) (t : trace) :
  built = Some req0 ->
  exists req,
    traceOf (attempt t) = t ++ [EvDo req]
    /\ (environ w !! "DOCKER_USER_AGENT" = Some "" ->
        ReqHeader req !! "User-Agent" = None
        /\ HeaderGet "User-Agent" (ReqHeader req) = "")
    /\ (forall x, environ w !! "DOCKER_USER_AGENT" = Some x -> x <> "" ->
        ReqHeader req !! "User-Agent" = Some [x]
        /\ HeaderGet "User-Agent" (ReqHeader req) = x)
    /\ (environ w !! "DOCKER_USER_AGENT" = None ->
        ReqHeader req !! "User-Agent" = ReqHeader req0 !! "User-Agent").
Proof.
  intros Hb. exists (prepare w cli method req0). split.
  - rewrite (attempt_built req0 t Hb). cbv zeta. apply conclude_trace.
  - unfold HeaderGet. rewrite canon_user_agent, prepare_user_agent.
    split; [|split].
    + intros H. now rewrite H.
    + intros x H Hx. rewrite H. destruct x; [contradiction|]. split; reflexivity.
    + intros H. now rewrite H.
Qed.

(** C5. For every transport error the round trip returns, the attempt
    returns, in this order: [ErrConnectionFailed] for a timeout or a
    message holding "connection refused" or "dial unix"; otherwise the
    message with the TLS hint when the scheme is http and the message
    holds "malformed HTTP response"; otherwise the client-certificate
    hint with the message when the scheme is https and the message holds
    "remote error: bad certificate"; otherwise a generic error wrapping
    the message. *)
Theorem attempt_classifies_transport_error (req0 : Request) (t : trace)
    (resp : option Response) (e : error) :
  built = Some req0 ->
  roundTrip w t (prepare w cli method req0) = (resp, Some e) ->
  let connFailed :=
    isTimeout e
    || GoStrings.Contains (Error e) "connection refused"
    || GoStrings.Contains (Error e) "dial unix" in
  let malformed :=
    String.eqb (scheme cli) "http"
    && GoStrings.Contains (Error e) "malformed HTTP response" in
  let badCertificate :=
    String.eqb (scheme cli) "https"
    && GoStrings.Contains (Error e) "remote error: bad certificate" in
  exists x,
    attempt t =
    Returned ({| body := None; header := None;
                 statusCode := match resp with
                               | Some r => StatusCode r
                               | None => -1
                               end |}, Some x)
             (t ++ [EvDo (prepare w cli method req0)])
    /\ (connFailed = true -> x = ErrConnectionFailed)
    /\ (connFailed = false -> malformed = true ->
        x = errorString
              (Error e +:+ "." +:+ nl
               +:+ "* Are you trying to connect to a TLS-enabled daemon without TLS?"))
    /\ (connFailed = false -> malformed = false -> badCertificate = true ->
        x = errorString
              ("The server probably has client authentication (--tlsverify) enabled. Please check your TLS client certification settings: "
               +:+ Error e))
    /\ (connFailed = false -> malformed = false -> badCertificate = false ->
        x = errorString ("An error occurred trying to connect: " +:+ Error e)).
Proof.
  intros Hb Hrt connFailed malformed badCertificate.
  exists (transportError cli e). split.
  - rewrite (attempt_built req0 t Hb). cbv zeta. rewrite Hrt. reflexivity.
  - unfold transportError. fold connFailed malformed badCertificate.
    repeat split; intros; repeat match goal with H : _ = _ |- _ => rewrite H end;
      reflexivity.
Qed.

(** C6, as the code has it. For every attempt whose round trip returns a
    response with a status outside [200,400) and no transport error, and
    whose body is read without error: an empty body gives the message
    that holds the status text and the request URL; a non-empty body
    gives "Error response from daemon: " followed by the trimmed body. *)
Theorem attempt_error_status (req0 : Request) (t : trace) (r : Response) :
  built = Some req0 ->
  roundTrip w t (prepare w cli method req0) = (Some r, None) ->
  StatusCode r < 200 \/ 400 <= StatusCode r ->
  readErr (RespBody r) = None ->
  let req := prepare w cli method req0 in
  exists msg,
    attempt t =
    Returned ({| body := None; header := None; statusCode := StatusCode r |},
              Some (errorString msg))
             (t ++ [EvDo req])
    /\ (content (RespBody r) = "" ->
        msg = "Error: request returned " +:+ http_StatusText (StatusCode r)
              +:+ " for API route and version " +:+ URL_String (ReqURL req)
              +:+ ", check if the server supports the requested API version"
        /\ GoStrings.Contains msg (http_StatusText (StatusCode r)) = true
        /\ GoStrings.Contains msg (URL_String (ReqURL req)) = true)
    /\ (content (RespBody r) <> "" ->
        msg = "Error response from daemon: " +:+ bytes_TrimSpace (content (RespBody r))).
Proof.
  intros Hb Hrt Hst Hread. cbv zeta.
  set (req := prepare w cli method req0) in *.
  rewrite (attempt_built req0 t Hb). cbv zeta. fold req. rewrite Hrt.
  unfold conclude. simpl.
  assert (Hc : (StatusCode r <? 200) || (400 <=? StatusCode r) = true).
  { apply orb_true_iff. destruct Hst; [left; now apply Z.ltb_lt | right; now apply Z.leb_le]. }
  rewrite Hc. run. rewrite Hread.
  destruct (content (RespBody r)) as [|c rest] eqn:Hd; simpl.
  - eexists. split; [reflexivity|]. split; [|congruence].
    intros _. split; [reflexivity|]. split.
    + apply Contains_app.
    + apply Contains_app_mid.
  - eexists. split; [reflexivity|]. split; [discriminate|]. reflexivity.
Qed.

(** What holds of the pair an attempt returns. *)
Lemma attempt_returns (t t' : trace) (sr : serverResponse) (err : option error) :
  attempt t = Returned (sr, err) t' ->
  match err with
  | None => inSuccessRange (statusCode sr) /\ is_Some (body sr) /\ is_Some (header sr)
  | Some _ => body sr = None /\ header sr = None
  end
  /\ (~ inSuccessRange (statusCode sr) -> err <> None).
Proof.
  destruct built as [req0|] eqn:Hb.
  2:{ rewrite (attempt_unbuilt t Hb). discriminate. }
  rewrite (attempt_built req0 t Hb). cbv zeta.
  destruct (roundTrip w t _) as [resp e]. simpl.
  unfold conclude, inSuccessRange. destruct e as [e|]; run.
  { intros [= <- <- <-]. simpl. repeat split; congruence. }
  destruct ((_ <? 200) || (400 <=? _)) eqn:Hc.
  - destruct resp as [r|]; simpl; [|discriminate].
    destruct (readErr (RespBody r)).
    + intros [= <- <- <-]. simpl. repeat split; congruence.
    + destruct (GoStrings.isEmpty _); intros [= <- <- <-]; simpl;
        repeat split; congruence.
  - destruct resp as [r|]; simpl in *; [|discriminate].
    intros [= <- <- <-]. simpl.
    apply orb_false_iff in Hc as [H1 H2].
    apply Z.ltb_ge in H1. apply Z.leb_gt in H2.
    repeat split; eauto; try lia.
Qed.

(** C7, as the code has it. An answer of the transport with a status in
    [200,400) and no transport error gives an envelope with that status,
    the body and the headers of the answer, and no error. For every
    envelope an attempt returns: with no error, the status is in
    [200,400) and body and headers are populated; with an error, body and
    headers are nil; a status outside [200,400) always comes with an
    error; and a status in [200,400) comes with an error only when the
    transport returned a response together with an error. *)
Theorem attempt_envelope (t : trace) :
  (forall req0 r,
      built = Some req0 ->
      roundTrip w t (prepare w cli method req0) = (Some r, None) ->
      inSuccessRange (StatusCode r) ->
      attempt t =
      Returned ({| body := Some (RespBody r); header := Some (RespHeader r);
                   statusCode := StatusCode r |}, None)
               (t ++ [EvDo (prepare w cli method req0)]))
  /\ (forall t' sr err,
        attempt t = Returned (sr, err) t' ->
        (err = None ->
         inSuccessRange (statusCode sr) /\ is_Some (body sr) /\ is_Some (header sr))
        /\ (err <> None -> body sr = None /\ header sr = None)
        /\ (~ inSuccessRange (statusCode sr) ->
            err <> None /\ body sr = None /\ header sr = None)
        /\ (inSuccessRange (statusCode sr) -> err <> None ->
            exists req0 r e0,
              built = Some req0
              /\ roundTrip w t (prepare w cli method req0) = (Some r, Some e0)
              /\ StatusCode r = statusCode sr)).
Proof.
  split.
  - intros req0 r Hb Hrt [H1 H2].
    rewrite (attempt_built req0 t Hb). cbv zeta. rewrite Hrt.
    unfold conclude. simpl.
    assert (Hc : (StatusCode r <? 200) || (400 <=? StatusCode r) = false).
    { apply orb_false_iff. split; [now apply Z.ltb_ge | now apply Z.leb_gt]. }
    rewrite Hc. run. reflexivity.
  - intros t' sr err H. pose proof (attempt_returns t t' sr err H) as [Hr Hout].
    split; [|split; [|split]].
    + intros ->. exact Hr.
    + intros Hne. destruct err as [e|]; [exact Hr|contradiction].
    + intros Hn. pose proof (Hout Hn) as Hne.
      destruct err as [e|]; [|contradiction]. split; [exact Hne|exact Hr].
    + intros Hin Hne. destruct err as [e|]; [clear Hne|contradiction].
      destruct built as [req0|] eqn:Hb.
      2:{ rewrite (attempt_unbuilt t Hb) in H. discriminate. }
      rewrite (attempt_built req0 t Hb) in H. cbv zeta in H.
      destruct (roundTrip w t (prepare w cli method req0)) as [resp e0] eqn:Hrt.
      simpl in H. unfold conclude in H. destruct e0 as [e0|]; revert H; run.
      * intros [= <- <- <-]. simpl in Hin.
        destruct resp as [r|]; [|unfold inSuccessRange in Hin; lia].
        exists req0, r, e0. split; [reflexivity|]. split; [exact Hrt|reflexivity].
      * destruct ((_ <? 200) || (400 <=? _)) eqn:Hc.
        -- destruct resp as [r|]; simpl; [|discriminate].
           assert (Hout' : ~ inSuccessRange (StatusCode r)).
           { unfold inSuccessRange. apply orb_true_iff in Hc as [Hc|Hc];
               [apply Z.ltb_lt in Hc|apply Z.leb_le in Hc]; simpl in Hc; lia. }
           destruct (readErr (RespBody r));
             [|destruct (GoStrings.isEmpty _)];
             intros [= <- <- <-]; simpl in Hin; contradiction.
        -- destruct resp as [r|]; simpl; [|discriminate]. discriminate.
Qed.

End Sender.

(** ** The proxy unlock probe *)

Section Probe.

Context {ext : Externals}.
Variable w : World.
Variable cli : Client.

Abbreviation proxyUrl := (proxyUrl cli).

(** The probe only talks to the network, and it ends. *)
Lemma tryProxy_trace (t : trace) :
  (exists l, traceOf (tryProxy w cli t) = t ++ l /\ steps l = [])
  /\ (forall t', tryProxy w cli t <> OutOfFuel t').
Proof.
  unfold tryProxy. run.
  destruct (plainGet w t proxyUrl) as [[pr|] [e|]]; simpl;
    try (split; [eexists; split; reflexivity | discriminate]).
  destruct (StatusCode pr =? 403); simpl;
    [|split; [eexists; split; reflexivity | discriminate]].
  destruct (Regexp.FindSubmatch proxyPattern _) as [|m0 [|m1 ms]]; simpl;
    try (split; [eexists; split; reflexivity | discriminate]).
  destruct (plainGet w _ _) as [[r|] e2]; simpl; run.
  - split; [|discriminate]. rewrite <- app_assoc. eexists. split; reflexivity.
  - split; [|discriminate]. rewrite <- app_assoc. eexists. split; reflexivity.
Qed.

(** A failed first request is handed back as the probe's error. *)
Lemma tryProxy_first_request_fails (t : trace) (resp : option Response) (e : error) :
  plainGet w t proxyUrl = (resp, Some e) ->
  tryProxy w cli t = Returned (Some e) (t ++ [EvGet proxyUrl]).
Proof. intros H. unfold tryProxy. run. now rewrite H. Qed.

(** A diagnostic status other than 403 is handed back as an error. *)
Lemma tryProxy_other_status (t : trace) (pr : Response) :
  plainGet w t proxyUrl = (Some pr, None) ->
  StatusCode pr <> 403 ->
  tryProxy w cli t =
  Returned (Some (errorString ("can not handle status code" +:+ pretty (StatusCode pr))))
           (t ++ [EvGet proxyUrl]).
Proof.
  intros H Hs. unfold tryProxy. run. rewrite H. simpl.
  apply Z.eqb_neq in Hs. now rewrite Hs.
Qed.

(** So is a 403 whose body holds no URL of the expected shape. *)
Lemma tryProxy_no_match (t : trace) (pr : Response) :
  plainGet w t proxyUrl = (Some pr, None) ->
  StatusCode pr = 403 ->
  Regexp.FindSubmatch proxyPattern (content (RespBody pr)) = [] ->
  tryProxy w cli t =
  Returned (Some (errorString ("can not handle status code" +:+ pretty (StatusCode pr))))
           (t ++ [EvGet proxyUrl]).
Proof.
  intros H Hs Hm. unfold tryProxy. run. rewrite H. simpl.
  rewrite Hs. simpl. now rewrite Hm.
Qed.

(** With a URL extracted, the second request is made; when it yields a
    response the probe returns nil ... *)
Lemma tryProxy_second_request_answered (t : trace) (pr r : Response)
    (e : option error) (m0 m1 : string) (ms : list string) :
  plainGet w t proxyUrl = (Some pr, None) ->
  StatusCode pr = 403 ->
  Regexp.FindSubmatch proxyPattern (content (RespBody pr)) = m0 :: m1 :: ms ->
  plainGet w (t ++ [EvGet proxyUrl]) m1 = (Some r, e) ->
  tryProxy w cli t = Returned None (t ++ [EvGet proxyUrl; EvGet m1]).
Proof.
  intros H Hs Hm H2. unfold tryProxy. run. rewrite H. simpl.
  rewrite Hs. simpl. rewrite Hm. simpl. rewrite H2. simpl.
  now rewrite <- app_assoc.
Qed.

(** ... and when it yields none, the nil response is dereferenced. *)
Lemma tryProxy_second_request_fails (t : trace) (pr : Response)
    (e : option error) (m0 m1 : string) (ms : list string) :
  plainGet w t proxyUrl = (Some pr, None) ->
  StatusCode pr = 403 ->
  Regexp.FindSubmatch proxyPattern (content (RespBody pr)) = m0 :: m1 :: ms ->
  plainGet w (t ++ [EvGet proxyUrl]) m1 = (None, e) ->
  tryProxy w cli t = Panicked (t ++ [EvGet proxyUrl; EvGet m1]).
Proof.
  intros H Hs Hm H2. unfold tryProxy. run. rewrite H. simpl.
  rewrite Hs. simpl. rewrite Hm. simpl. rewrite H2. simpl.
  now rewrite <- app_assoc.
Qed.

End Probe.

(** ** The dispatcher *)

Lemma steps_app (a b : trace) : steps (a ++ b) = steps a ++ steps b.
Proof. apply List.filter_app. Qed.

Lemma attempts_app (a b : trace) : attempts (a ++ b) = (attempts a + attempts b)%nat.
Proof. unfold attempts. now rewrite steps_app, List.filter_app, length_app. Qed.

Lemma attempts_quiet (l : trace) : steps l = [] -> attempts l = 0%nat.
Proof. unfold attempts. now intros ->. Qed.

Lemma attempts_quiet_r (t l : trace) : steps l = [] -> attempts (t ++ l) = attempts t.
Proof. intros H. rewrite attempts_app, (attempts_quiet l H). lia. Qed.

Lemma attempts_snoc (t : trace) : attempts (t ++ [EvAttempt]) = S (attempts t).
Proof. rewrite attempts_app. unfold attempts at 2. simpl. lia. Qed.

Lemma attempts_other (t : trace) (e : event) :
  isAttempt e = false -> attempts (t ++ [e]) = attempts t.
Proof.
  intros H. rewrite attempts_app. unfold attempts at 2. simpl.
  destruct (isStep e); simpl; [rewrite H|]; simpl; lia.
Qed.

Lemma wrapInt_small (z : Z) : - 2 ^ 63 <= z < 2 ^ 63 -> wrapInt z = z.
Proof. intros H. unfold wrapInt. rewrite Z.mod_small; lia. Qed.

Section Dispatcher.

Context {ext : Externals}.
Variable w : World.
Variable cli : Client.
Variables method path : string.
Variable query : Header.
Variable data : option string.
Variable headers : option Header.

Abbreviation attempt := (doSendClientRequest w cli method path query data headers).
Abbreviation loop :=
  (fun fuel => retryLoop w fuel cli method path query data headers).
Abbreviation dispatch :=
  (fun fuel => sendClientRequest w fuel cli method path query data headers).

(** Past the budget the loop returns what it holds. *)
Lemma loop_done (fuel : nat) (retries try : Z) resp err (t : trace) :
  retries < try ->
  loop fuel retries try resp err t = Returned (resp, err) t.
Proof.
  intros H. apply Z.leb_gt in H.
  destruct fuel; simpl; rewrite H; reflexivity.
Qed.

(** An attempt without error ends the loop. *)
Lemma loop_success (fuel : nat) (retries try : Z) resp err (t t' : trace)
    (sr : serverResponse) :
  try <= retries ->
  attempt (t ++ [EvAttempt]) = Returned (sr, None) t' ->
  loop (S fuel) retries try resp err t = Returned (Some sr, None) t'.
Proof.
  intros H Ha. apply Z.leb_le in H. simpl. rewrite H. run. now rewrite Ha.
Qed.

(** So does a failure with a status outside 407, 403, -1. *)
Lemma loop_fatal (fuel : nat) (retries try : Z) resp err (t t' : trace)
    (sr : serverResponse) (e : error) :
  try <= retries ->
  attempt (t ++ [EvAttempt]) = Returned (sr, Some e) t' ->
  retryable (statusCode sr) = false ->
  loop (S fuel) retries try resp err t = Returned (Some sr, Some e) t'.
Proof.
  intros H Ha Hr. apply Z.leb_le in H. simpl. rewrite H. run.
  rewrite Ha. now rewrite Hr.
Qed.

(** A failure with one of these statuses is followed by the probe, whose
    result is dropped, a sleep of one second and the next iteration. *)
Lemma loop_round (fuel : nat) (retries try : Z) resp err (t t1 t2 : trace)
    (sr : serverResponse) (e : error) (r : option error) :
  try <= retries ->
  attempt (t ++ [EvAttempt]) = Returned (sr, Some e) t1 ->
  retryable (statusCode sr) = true ->
  tryProxy w cli (t1 ++ [EvProbe]) = Returned r t2 ->
  loop (S fuel) retries try resp err t =
  loop fuel retries (wrapInt (try + 1)) (Some sr) (Some e) (t2 ++ [EvSleep 1]).
Proof.
  intros H Ha Hr Hp. apply Z.leb_le in H. simpl. rewrite H. run.
  rewrite Ha, Hr. run. now rewrite Hp.
Qed.

(** When the attempt crashes, so does the dispatch. *)
Lemma loop_attempt_crash (fuel : nat) (retries try : Z) resp err (t t1 : trace) :
  try <= retries ->
  attempt (t ++ [EvAttempt]) = Panicked t1 ->
  loop (S fuel) retries try resp err t = Panicked t1.
Proof.
  intros H Ha. apply Z.leb_le in H. simpl. rewrite H. run. now rewrite Ha.
Qed.

(** When the probe crashes, so does the dispatch. *)
Lemma loop_probe_crash (fuel : nat) (retries try : Z) resp err (t t1 t2 : trace)
    (sr : serverResponse) (e : error) :
  try <= retries ->
  attempt (t ++ [EvAttempt]) = Returned (sr, Some e) t1 ->
  retryable (statusCode sr) = true ->
  tryProxy w cli (t1 ++ [EvProbe]) = Panicked t2 ->
  loop (S fuel) retries try resp err t = Panicked t2.
Proof.
  intros H Ha Hr Hp. apply Z.leb_le in H. simpl. rewrite H. run.
  rewrite Ha, Hr. run. now rewrite Hp.
Qed.

(** C2. A dispatch whose first attempt fails with a status outside 407,
    403, -1, or succeeds, makes that one attempt, whatever the budget:
    it returns the attempt's envelope and error, and its own steps are
    the one attempt, with no probe and no sleep. A first attempt exists
    when the budget is not negative. *)
Theorem dispatch_first_attempt_decides (fuel : nat) (t t' : trace)
    (sr : serverResponse) (err : option error) :
  0 <= retryBudget w ->
  attempt (t ++ [EvAttempt]) = Returned (sr, err) t' ->
  err = None \/ retryable (statusCode sr) = false ->
  dispatch (S fuel) t = Returned (Some sr, err) t'
  /\ steps t' = steps t ++ [EvAttempt]
  /\ (err = None -> inSuccessRange (statusCode sr)).
Proof.
  intros Hb Ha Hc. split; [|split].
  - unfold sendClientRequest. destruct err as [e|].
    + destruct Hc as [Hc|Hc]; [discriminate|].
      now apply loop_fatal.
    + now apply loop_success.
  - destruct (attempt_trace w cli method path query data headers (t ++ [EvAttempt]))
      as [(l & Hl & Hq) _].
    rewrite Ha in Hl. simpl in Hl. rewrite Hl, !steps_app, Hq.
    now rewrite app_nil_r.
  - intros ->.
    now apply (attempt_returns w cli method path query data headers _ _ _ _ Ha).
Qed.

(** With a budget of 0 there is exactly one attempt, and the loop ends
    on one unit of fuel. *)
Lemma loop_single (fuel : nat) resp err (t : trace) :
  attempts (traceOf (loop (S fuel) 0 0 resp err t)) = S (attempts t)
  /\ (forall t', loop (S fuel) 0 0 resp err t <> OutOfFuel t').
Proof.
  simpl. run.
  destruct (attempt_trace w cli method path query data headers (t ++ [EvAttempt]))
    as [(l & Hl & Hq) Hf].
  destruct (attempt (t ++ [EvAttempt])) as [[sr [e|]] t1|t1|t1] eqn:Ha;
    simpl in Hl; subst t1; simpl.
  - destruct (retryable (statusCode sr)); simpl.
    2:{ split; [|discriminate]. now rewrite attempts_quiet_r, attempts_snoc. }
    destruct (tryProxy_trace w cli (((t ++ [EvAttempt]) ++ l) ++ [EvProbe]))
      as [(l2 & Hl2 & Hq2) Hf2].
    destruct (tryProxy w cli _) as [r t2|t2|t2] eqn:Hp; simpl in Hl2; subst t2; simpl.
    + rewrite loop_done by (rewrite wrapInt_small; lia).
      simpl. split; [|discriminate].
      rewrite (attempts_other _ (EvSleep 1)) by reflexivity.
      rewrite (attempts_quiet_r _ l2) by exact Hq2.
      rewrite (attempts_other _ EvProbe) by reflexivity.
      now rewrite attempts_quiet_r, attempts_snoc.
    + split; [|discriminate].
      rewrite (attempts_quiet_r _ l2) by exact Hq2.
      rewrite (attempts_other _ EvProbe) by reflexivity.
      now rewrite attempts_quiet_r, attempts_snoc.
    + exfalso. now apply (Hf2 _ eq_refl).
  - split; [|discriminate]. now rewrite attempts_quiet_r, attempts_snoc.
  - split; [|discriminate]. now rewrite attempts_quiet_r, attempts_snoc.
  - exfalso. now apply (Hf _ eq_refl).
Qed.

(** C10, as the code has it. A budget that parses to a negative integer
    gives no attempt and the result (nil, "no requests made"); a value
    that the parser rejects for its syntax gives budget 0 and exactly one
    attempt. *)
Theorem dispatch_degenerate_budget (fuel : nat) (t : trace) :
  (retryBudget w < 0 ->
   dispatch fuel t = Returned (None, Some (errorString "no requests made")) t)
  /\ (snd (Strconv.Atoi (os_Getenv w "DOCKER_HTTP_RETRY")) = Some Strconv.ErrSyntax ->
      retryBudget w = 0
      /\ attempts (traceOf (dispatch (S fuel) t)) = S (attempts t)
      /\ (forall t', dispatch (S fuel) t <> OutOfFuel t')).
Proof.
  split.
  - intros H. unfold sendClientRequest. now apply loop_done.
  - intros H. apply Atoi_syntax_zero in H. fold (retryBudget w) in H.
    split; [exact H|]. unfold sendClientRequest. rewrite H. apply loop_single.
Qed.

(** The loop when every attempt fails with a status in 407, 403, -1 and
    every probe returns: [k] iterations are left, each a full round. *)
Lemma loop_rounds (N : Z) (k : nat) :
  (forall t, exists sr e t',
      attempt t = Returned (sr, Some e) t' /\ retryable (statusCode sr) = true) ->
  (forall t, exists r t', tryProxy w cli t = Returned r t') ->
  N < Strconv.maxInt ->
  forall (fuel : nat) (try : Z) resp err (t : trace),
    0 <= try ->
    try + Z.of_nat k = N + 1 ->
    (k <= fuel)%nat ->
    exists resp' err' t',
      loop fuel N try resp err t = Returned (resp', err') t'
      /\ steps t' = steps t ++ concat (replicate k round)
      /\ (k = 0%nat -> resp' = resp /\ err' = err)
      /\ (k <> 0%nat -> exists sr e,
            resp' = Some sr /\ err' = Some e /\ retryable (statusCode sr) = true).
Proof.
  intros Hatt Hprobe HN. unfold Strconv.maxInt in HN.
  induction k as [|k IH]; intros fuel try resp err t Htry Hk Hfuel.
  - exists resp, err, t. rewrite loop_done by lia. simpl.
    rewrite app_nil_r. repeat split; congruence.
  - destruct fuel as [|fuel]; [lia|].
    destruct (Hatt (t ++ [EvAttempt])) as (sr & e & t1 & Ha & Hr).
    destruct (Hprobe (t1 ++ [EvProbe])) as (r & t2 & Hp).
    rewrite (loop_round fuel N try resp err t t1 t2 sr e r) by (try lia; assumption).
    rewrite wrapInt_small by lia.
    destruct (IH fuel (try + 1) (Some sr) (Some e) (t2 ++ [EvSleep 1]))
      as (resp' & err' & t' & Hl & Hs & H0 & Hn); try lia.
    exists resp', err', t'. split; [exact Hl|]. split; [|split; [discriminate|]].
    + rewrite Hs.
      destruct (attempt_trace w cli method path query data headers (t ++ [EvAttempt]))
        as [(l & Hl1 & Hq1) _].
      destruct (tryProxy_trace w cli (t1 ++ [EvProbe])) as [(l2 & Hl2 & Hq2) _].
      rewrite Ha in Hl1. rewrite Hp in Hl2. simpl in Hl1, Hl2. subst t1 t2.
      rewrite !steps_app, Hq1, Hq2. simpl. rewrite !app_nil_r.
      now rewrite <- !app_assoc.
    + intros _. destruct k as [|k'].
      * destruct (H0 eq_refl) as [-> ->]. eauto.
      * apply Hn. discriminate.
Qed.

(** The retry loop proper: with a budget [N] between 0 and the largest
    [int] (exclusive), attempts that all fail with a status in 407, 403,
    -1 and probes that all return, the dispatch makes [N+1] attempts,
    each followed by the probe and a sleep of one second, and returns the
    last envelope and error. *)
Lemma dispatch_exhausts_budget (fuel : nat) (t : trace) :
  (forall t, exists sr e t',
      attempt t = Returned (sr, Some e) t' /\ retryable (statusCode sr) = true) ->
  (forall t, exists r t', tryProxy w cli t = Returned r t') ->
  0 <= retryBudget w < Strconv.maxInt ->
  (Z.to_nat (retryBudget w) < fuel)%nat ->
  exists sr e t',
    dispatch fuel t = Returned (Some sr, Some e) t'
    /\ retryable (statusCode sr) = true
    /\ steps t' = steps t ++ concat (replicate (S (Z.to_nat (retryBudget w))) round)
    /\ attempts t' = (attempts t + S (Z.to_nat (retryBudget w)))%nat.
Proof.
  intros Hatt Hprobe HN Hfuel. unfold sendClientRequest.
  destruct (loop_rounds (retryBudget w) (S (Z.to_nat (retryBudget w))) Hatt Hprobe
              (proj2 HN) fuel 0 None (Some (errorString "no requests made")) t)
    as (resp' & err' & t' & Hl & Hs & _ & Hn); try lia.
  destruct Hn as (sr & e & -> & -> & Hr); [discriminate|].
  exists sr, e, t'. repeat split; try assumption.
  unfold attempts. rewrite Hs, List.filter_app, length_app. f_equal.
  generalize (S (Z.to_nat (retryBudget w))) as n.
  induction n as [|n IHn]; [reflexivity|]. simpl. now rewrite IHn.
Qed.

End Dispatcher.

(** ** The claims on concrete dispatches *)

Section Concrete.

Import Demo.

Abbreviation GET w := (doSendClientRequest w cli "GET" "/info" ∅ None None).
Abbreviation dispatchGET w fuel := (sendClientRequest w fuel cli "GET" "/info" ∅ None None).

Lemma request_built (method path : string) (headers : option Header) :
  Textproto.allValid method = true ->
  hasControl ("/v" +:+ version cli +:+ path) = false ->
  fst (newRequest cli method path ∅ (payload method None) headers)
  = Some (request method path headers).
Proof.
  intros Hm Hu. unfold request.
  destruct (fst (newRequest _ _ _ _ _ _)) eqn:E; [reflexivity|].
  unfold newRequest, http_NewRequest, getAPIPath, ext, newRequestOf in E.
  rewrite Hm, Hu in E. discriminate.
Qed.

Lemma GET_built : fst (newRequest cli "GET" "/info" ∅ (payload "GET" None) None)
                  = Some (request "GET" "/info" None).
Proof. now apply request_built. Qed.



Abbreviation outgoing w := (prepare w cli "GET" (request "GET" "/info" None)).

(** What one GET yields in each of the settings. *)
Lemma GET_answer (w : World) (t : trace) :
  GET w t =
  conclude cli (outgoing w) (fst (roundTrip w t (outgoing w)))
           (snd (roundTrip w t (outgoing w))) (t ++ [EvDo (outgoing w)]).
Proof. apply (attempt_built w cli "GET" "/info" ∅ None None _ t GET_built). Qed.

Lemma GET_captive (retry : option string) (t : trace) :
  GET (captive retry) t =
  Returned ({| body := None; header := None; statusCode := 403 |},
            Some (errorString ("Error response from daemon: " +:+ portalBody)))
           (t ++ [EvDo (outgoing (captive retry))]).
Proof. rewrite GET_answer. reflexivity. Qed.

Lemma GET_blocked (retry : option string) (t : trace) :
  GET (blocked retry) t =
  Returned ({| body := None; header := None; statusCode := 403 |},
            Some (errorString "Error response from daemon: Forbidden"))
           (t ++ [EvDo (outgoing (blocked retry))]).
Proof. rewrite GET_answer. reflexivity. Qed.

Lemma GET_daemon (retry ua : option string) (t : trace) :
  GET (daemon retry ua 500 "boom") t =
  Returned ({| body := None; header := None; statusCode := 500 |},
            Some (errorString "Error response from daemon: boom"))
           (t ++ [EvDo (outgoing (daemon retry ua 500 "boom"))]).
Proof. rewrite GET_answer. reflexivity. Qed.

Lemma probe_captive (retry : option string) (t : trace) :
  tryProxy (captive retry) cli t =
  Panicked (t ++ [EvGet "http://daemon:2375/v1.22/info";
                  EvGet "http://portal/login?url=http://daemon:2375/"]).
Proof.
  apply (tryProxy_second_request_fails (captive retry) cli t
           {| StatusCode := 403; RespHeader := ∅;
              RespBody := {| content := portalBody; readErr := None |} |}
           (Some (libError "dial tcp: connection refused" (Some false)))
           portalBody "http://portal/login?url=http://daemon:2375/" []);
    reflexivity.
Qed.

Lemma probe_blocked (retry : option string) (t : trace) :
  tryProxy (blocked retry) cli t =
  Returned (Some (libError "dial tcp: connection refused" (Some false)))
           (t ++ [EvGet "http://daemon:2375/v1.22/info"]).
Proof. now apply (tryProxy_first_request_fails (blocked retry) cli t None). Qed.

(** C1 on the code. The budget is 1 and every attempt fails with 403, as
    behind a captive portal whose login page cannot be reached: the
    dispatch ends in a panic inside the first probe, after one attempt
    and without a sleep, where two attempts were due. *)
Theorem dispatch_crashes_in_first_probe :
  retryBudget (captive (Some "1")) = 1
  /\ (forall t, exists e t',
        GET (captive (Some "1")) t
        = Returned ({| body := None; header := None; statusCode := 403 |}, Some e) t')
  /\ panicked (dispatchGET (captive (Some "1")) 5 []) = true
  /\ steps (traceOf (dispatchGET (captive (Some "1")) 5 [])) = [EvAttempt; EvProbe]
  /\ attempts (traceOf (dispatchGET (captive (Some "1")) 5 [])) = 1%nat.
Proof.
  split; [reflexivity|]. split.
  { intros t. eexists _, _. apply GET_captive. }
  assert (H : dispatchGET (captive (Some "1")) 5 [] =
              Panicked ((([EvAttempt] ++ [EvDo (outgoing (captive (Some "1")))])
                         ++ [EvProbe])
                        ++ [EvGet "http://daemon:2375/v1.22/info";
                            EvGet "http://portal/login?url=http://daemon:2375/"])).
  { unfold sendClientRequest.
    eapply (loop_probe_crash (captive (Some "1")) cli "GET" "/info" ∅ None None 4).
    - vm_compute. discriminate.
    - apply (GET_captive (Some "1") [EvAttempt]).
    - reflexivity.
    - apply probe_captive. }
  rewrite H. repeat split.
Qed.

(** The same proxy with its diagnostic endpoint down, so that every
    probe returns: budget 2 gives three full rounds. *)
Example dispatch_blocked_three_rounds :
  exists sr e t',
    dispatchGET (blocked (Some "2")) 3 [] = Returned (Some sr, Some e) t'
    /\ retryable (statusCode sr) = true
    /\ steps t' = round ++ round ++ round
    /\ attempts t' = 3%nat.
Proof.
  destruct (dispatch_exhausts_budget (blocked (Some "2")) cli "GET" "/info" ∅ None None 3 [])
    as (sr & e & t' & H & Hr & Hs & Ha).
  - intros t. eexists _, _, _. split; [apply GET_blocked|reflexivity].
  - intros t. eexists _, _. apply probe_blocked.
  - split; [discriminate|reflexivity].
  - change (retryBudget (blocked (Some "2"))) with 2. simpl. lia.
  - change (retryBudget (blocked (Some "2"))) with 2 in Hs, Ha.
    exists sr, e, t'. repeat split; assumption.
Qed.

(** C2 at a daemon that answers 500 with a budget of 3: one attempt, the
    500 envelope and its error returned, no probe, no sleep. *)
Lemma dispatch_first_attempt_decides_witness :
  dispatchGET (daemon (Some "3") None 500 "boom") 1 []
  = Returned (Some {| body := None; header := None; statusCode := 500 |},
              Some (errorString "Error response from daemon: boom"))
             ([EvAttempt] ++ [EvDo (outgoing (daemon (Some "3") None 500 "boom"))])
  /\ steps ([EvAttempt] ++ [EvDo (outgoing (daemon (Some "3") None 500 "boom"))])
     = [EvAttempt].
Proof.
  destruct (dispatch_first_attempt_decides
              (daemon (Some "3") None 500 "boom") cli "GET" "/info" ∅ None None
              0 [] _ _ _
              ltac:(vm_compute; discriminate)
              (GET_daemon (Some "3") None [EvAttempt])
              (or_intror eq_refl)) as (H1 & H2 & _).
  split; [exact H1 | exact H2].
Defined.

(** C3 on the code. The diagnostic call is answered 403 with a body that
    holds a portal URL, and the call to that URL fails: the probe
    dereferences the nil response and panics, and the dispatch, whose one
    attempt had returned the daemon's 403 error, ends in that panic
    instead of returning the error. *)
Theorem tryProxy_crashes_on_failed_second_request :
  tryProxy (captive None) cli []
  = Panicked [EvGet "http://daemon:2375/v1.22/info";
              EvGet "http://portal/login?url=http://daemon:2375/"]
  /\ retryBudget (captive None) = 0
  /\ GET (captive None) [EvAttempt]
     = Returned ({| body := None; header := None; statusCode := 403 |},
                 Some (errorString ("Error response from daemon: " +:+ portalBody)))
                ([EvAttempt] ++ [EvDo (outgoing (captive None))])
  /\ panicked (dispatchGET (captive None) 1 []) = true.
Proof.
  split; [apply (probe_captive None [])|]. split; [reflexivity|].
  split; [apply GET_captive|].
  unfold sendClientRequest.
  erewrite (loop_probe_crash (captive None) cli "GET" "/info" ∅ None None 0).
  - reflexivity.
  - vm_compute. discriminate.
  - apply (GET_captive None [EvAttempt]).
  - reflexivity.
  - apply probe_captive.
Qed.

(** C4 on the code. [http.NewRequest] rejects the method: [newRequest]
    returns a nil request with that error, the single-attempt sender
    dereferences the nil request and panics before anything is sent, and
    so does the dispatch. *)
Theorem attempt_crashes_on_rejected_request :
  newRequest cli "BAD METHOD" "/info" ∅ (payload "BAD METHOD" None) None
  = (None, Some (errorString "net/http: invalid method BAD METHOD"))
  /\ doSendClientRequest (daemon None None 200 "[]") cli "BAD METHOD" "/info" ∅ None None []
     = Panicked []
  /\ sendClientRequest (daemon None None 200 "[]") 1 cli "BAD METHOD" "/info" ∅ None None []
     = Panicked [EvAttempt].
Proof.
  assert (Hn : newRequest cli "BAD METHOD" "/info" ∅ (payload "BAD METHOD" None) None
               = (None, Some (errorString "net/http: invalid method BAD METHOD"))).
  { now apply newRequest_error. }
  assert (Ha : forall t,
             doSendClientRequest (daemon None None 200 "[]") cli "BAD METHOD" "/info"
               ∅ None None t = Panicked t).
  { intros t. apply attempt_unbuilt. now rewrite Hn. }
  split; [exact Hn|]. split; [apply Ha|].
  unfold sendClientRequest. apply loop_attempt_crash; [|apply Ha].
  vm_compute. discriminate.
Qed.

(** C5 at a daemon that is not listening: the dial error is reported as
    [ErrConnectionFailed], with the status left at -1. *)
Lemma attempt_classifies_transport_error_witness :
  GET down []
  = Returned ({| body := None; header := None; statusCode := -1 |},
              Some ErrConnectionFailed)
             ([] ++ [EvDo (outgoing down)]).
Proof.
  destruct (attempt_classifies_transport_error down cli "GET" "/info" ∅ None None
              (request "GET" "/info" None) [] None
              (libError "dial tcp: connection refused" (Some false))
              GET_built eq_refl) as (x & H & Hc & _).
  rewrite H, (Hc eq_refl). reflexivity.
Defined.

(** C6 as stated fails: a 500 with the body "boom" gives a message that
    is not the trimmed body. *)
Lemma attempt_error_message_is_prefixed :
  GET (daemon None None 500 "boom") []
  = Returned ({| body := None; header := None; statusCode := 500 |},
              Some (errorString "Error response from daemon: boom"))
             ([] ++ [EvDo (outgoing (daemon None None 500 "boom"))])
  /\ bytes_TrimSpace "boom" = "boom"
  /\ Error (errorString "Error response from daemon: boom") <> bytes_TrimSpace "boom".
Proof.
  split; [apply GET_daemon|]. split; [reflexivity|discriminate].
Qed.

(** C6 as the code has it, at a 500 with body " boom " and at a 404
    without body. *)
Lemma attempt_error_status_witness :
  (exists msg,
      GET (daemon None None 500 " boom ") []
      = Returned ({| body := None; header := None; statusCode := 500 |},
                  Some (errorString msg))
                 ([] ++ [EvDo (outgoing (daemon None None 500 " boom "))])
      /\ msg = "Error response from daemon: boom")
  /\ (exists msg,
        GET (daemon None None 404 "") []
        = Returned ({| body := None; header := None; statusCode := 404 |},
                    Some (errorString msg))
                   ([] ++ [EvDo (outgoing (daemon None None 404 ""))])
        /\ GoStrings.Contains msg (http_StatusText 404) = true
        /\ GoStrings.Contains msg (URL_String (ReqURL (outgoing (daemon None None 404 ""))))
           = true).
Proof.
  split.
  - destruct (attempt_error_status (daemon None None 500 " boom ") cli "GET" "/info"
                ∅ None None (request "GET" "/info" None) []
                {| StatusCode := 500; RespHeader := ∅;
                   RespBody := {| content := " boom "; readErr := None |} |}
                GET_built eq_refl ltac:(right; simpl; lia) eq_refl)
      as (msg & H & _ & Hb).
    exists msg. split; [exact H|].
    assert (Hne : " boom " <> "") by discriminate.
    rewrite (Hb Hne). reflexivity.
  - destruct (attempt_error_status (daemon None None 404 "") cli "GET" "/info"
                ∅ None None (request "GET" "/info" None) []
                {| StatusCode := 404; RespHeader := ∅;
                   RespBody := {| content := ""; readErr := None |} |}
                GET_built eq_refl ltac:(right; simpl; lia) eq_refl)
      as (msg & H & He & _).
    exists msg. split; [exact H|]. destruct (He eq_refl) as (_ & H1 & H2).
    split; [exact H1 | exact H2].
Defined.

(** C7 as stated fails: when the transport gives up on a redirect loop
    it returns the last response together with its error, and the
    envelope carries status 302, inside [200,400), with a nil body and an
    error. *)
Lemma attempt_envelope_status_with_error :
  GET redirectLoop []
  = Returned ({| body := None; header := None; statusCode := 302 |},
              Some (errorString
                      "An error occurred trying to connect: Get http://daemon:2375/v1.22/info: stopped after 10 redirects"))
             ([] ++ [EvDo (outgoing redirectLoop)])
  /\ inSuccessRange 302.
Proof.
  split; [|unfold inSuccessRange; lia]. rewrite GET_answer. reflexivity.
Qed.

Lemma GET_ok (t : trace) :
  GET (daemon None None 200 "[]") t
  = Returned ({| body := Some {| content := "[]"; readErr := None |};
                 header := Some ∅; statusCode := 200 |}, None)
             (t ++ [EvDo (outgoing (daemon None None 200 "[]"))]).
Proof. rewrite GET_answer. reflexivity. Qed.

(** C7 as the code has it, at a 200. *)
Lemma attempt_envelope_witness :
  GET (daemon None None 200 "[]") []
  = Returned ({| body := Some {| content := "[]"; readErr := None |};
                 header := Some ∅; statusCode := 200 |}, None)
             ([] ++ [EvDo (outgoing (daemon None None 200 "[]"))])
  /\ inSuccessRange 200
  /\ is_Some (Some {| content := "[]"; readErr := None |})
  /\ is_Some (Some (∅ : Header)).
Proof.
  pose proof (attempt_envelope (daemon None None 200 "[]") cli "GET" "/info" ∅ None None [])
    as [Hforward Hback].
  assert (H : GET (daemon None None 200 "[]") []
              = Returned ({| body := Some {| content := "[]"; readErr := None |};
                             header := Some ∅; statusCode := 200 |}, None)
                         ([] ++ [EvDo (outgoing (daemon None None 200 "[]"))])).
  { apply (Hforward (request "GET" "/info" None)
             {| StatusCode := 200; RespHeader := ∅;
                RespBody := {| content := "[]"; readErr := None |} |}
             GET_built eq_refl).
    unfold inSuccessRange. simpl. lia. }
  split; [exact H|].
  exact (proj1 (Hback _ _ _ H) eq_refl).
Defined.

(** C9 with the override set to the empty string, to "curl/8" and
    unset: the client's [User-Agent] is removed, replaced, kept. *)
Lemma attempt_user_agent_witness :
  (exists req,
      traceOf (GET (daemon None (Some "") 200 "[]") []) = [] ++ [EvDo req]
      /\ ReqHeader req !! "User-Agent" = None)
  /\ (exists req,
        traceOf (GET (daemon None (Some "curl/8") 200 "[]") []) = [] ++ [EvDo req]
        /\ ReqHeader req !! "User-Agent" = Some ["curl/8"])
  /\ (exists req,
        traceOf (GET (daemon None None 200 "[]") []) = [] ++ [EvDo req]
        /\ ReqHeader req !! "User-Agent"
           = ReqHeader (request "GET" "/info" None) !! "User-Agent").
Proof.
  split; [|split].
  - destruct (attempt_user_agent (daemon None (Some "") 200 "[]") cli "GET" "/info"
                ∅ None None _ [] GET_built) as (req & Ht & H1 & _ & _).
    exists req. split; [exact Ht|]. apply H1. reflexivity.
  - destruct (attempt_user_agent (daemon None (Some "curl/8") 200 "[]") cli "GET" "/info"
                ∅ None None _ [] GET_built) as (req & Ht & _ & H2 & _).
    exists req. split; [exact Ht|]. apply (H2 "curl/8"); [reflexivity|discriminate].
  - destruct (attempt_user_agent (daemon None None 200 "[]") cli "GET" "/info"
                ∅ None None _ [] GET_built) as (req & Ht & _ & _ & H3).
    exists req. split; [exact Ht|]. apply H3. reflexivity.
Defined.

(** C10 as stated fails: these two values do not parse ([Atoi] returns an
    error for both, and the second is no numeral at all), yet the budget
    is the largest [int], not 0, and the dispatch goes on to a second and
    a third attempt. *)
Lemma budget_of_overflowing_value :
  Strconv.Atoi "99999999999999999999" = (Strconv.maxInt, Some Strconv.ErrRange)
  /\ Strconv.Atoi "99999999999999999999x" = (Strconv.maxInt, Some Strconv.ErrRange)
  /\ retryBudget (blocked (Some "99999999999999999999x")) = 9223372036854775807
  /\ attempts (traceOf (dispatchGET (blocked (Some "99999999999999999999x")) 3 []))
     = 3%nat.
Proof.
  split; [reflexivity|]. split; [reflexivity|]. split; [reflexivity|].
  unfold sendClientRequest.
  change (retryBudget (blocked (Some "99999999999999999999x")))
    with 9223372036854775807.
  erewrite (loop_round _ cli "GET" "/info" ∅ None None 2);
    [|lia|apply GET_blocked|reflexivity|apply probe_blocked].
  rewrite wrapInt_small by lia.
  erewrite (loop_round _ cli "GET" "/info" ∅ None None 1);
    [|lia|apply GET_blocked|reflexivity|apply probe_blocked].
  rewrite wrapInt_small by lia.
  erewrite (loop_round _ cli "GET" "/info" ∅ None None 0);
    [|lia|apply GET_blocked|reflexivity|apply probe_blocked].
  reflexivity.
Qed.

(** C10 as the code has it: DOCKER_HTTP_RETRY=-1 gives no attempt and
    the "no requests made" error; DOCKER_HTTP_RETRY=two gives budget 0 and
    one attempt. *)
Lemma dispatch_degenerate_budget_witness :
  dispatchGET (blocked (Some "-1")) 0 []
  = Returned (None, Some (errorString "no requests made")) []
  /\ retryBudget (blocked (Some "two")) = 0
  /\ attempts (traceOf (dispatchGET (blocked (Some "two")) 1 [])) = 1%nat.
Proof.
  split.
  - apply (proj1 (dispatch_degenerate_budget (blocked (Some "-1")) cli "GET" "/info"
                    ∅ None None 0 [])).
    vm_compute. reflexivity.
  - destruct (proj2 (dispatch_degenerate_budget (blocked (Some "two")) cli "GET" "/info"
                       ∅ None None 0 []) eq_refl) as (H0 & H1 & _).
    split; [exact H0 | exact H1].
Defined.

(** The two scenarios of the specification. Budget 2 and the answers
    403, 407, 200: three attempts, two probes and sleeps, the 200
    returned. *)
Example scenario_unlocked_on_third_attempt :
  exists sr t',
    dispatchGET (unlocking (Some "2")) 3 [] = Returned (Some sr, None) t'
    /\ statusCode sr = 200
    /\ steps t' = round ++ round ++ [EvAttempt].
Proof.
  unfold sendClientRequest.
  change (retryBudget (unlocking (Some "2"))) with 2.
  assert (Hp : forall t, tryProxy (unlocking (Some "2")) cli t
               = Returned (Some (libError "dial tcp: connection refused" (Some false)))
                          (t ++ [EvGet "http://daemon:2375/v1.22/info"])).
  { intros t. now apply (tryProxy_first_request_fails _ cli t None). }
  erewrite (loop_round _ cli "GET" "/info" ∅ None None 2);
    [|lia|rewrite GET_answer; reflexivity|reflexivity|apply Hp].
  rewrite wrapInt_small by lia.
  erewrite (loop_round _ cli "GET" "/info" ∅ None None 1);
    [|lia|rewrite GET_answer; reflexivity|reflexivity|apply Hp].
  rewrite wrapInt_small by lia.
  erewrite (loop_success _ cli "GET" "/info" ∅ None None 0);
    [|lia|rewrite GET_answer; reflexivity].
  eexists _, _. split; [reflexivity|]. split; reflexivity.
Qed.

(** Budget 1 and the answer 500: one attempt, the error returned. *)
Example scenario_server_error_not_retried :
  dispatchGET (daemon (Some "1") None 500 "boom") 2 []
  = Returned (Some {| body := None; header := None; statusCode := 500 |},
              Some (errorString "Error response from daemon: boom"))
             ([EvAttempt] ++ [EvDo (outgoing (daemon (Some "1") None 500 "boom"))]).
Proof.
  unfold sendClientRequest.
  apply loop_fatal; [vm_compute; discriminate | apply GET_daemon | reflexivity].
Qed.

End Concrete.

(** ** The dispatcher under any network *)

Section Invariants.

Context {ext : Externals}.
Variable w : World.
Variable cli : Client.
Variables method path : string.
Variable query : Header.
Variable data : option string.
Variable headers : option Header.

Abbreviation built :=
  (fst (newRequest cli method path query (payload method data) headers)).
Abbreviation attempt := (doSendClientRequest w cli method path query data headers).
Abbreviation loop :=
  (fun fuel => retryLoop w fuel cli method path query data headers).
Abbreviation dispatch :=
  (fun fuel => sendClientRequest w fuel cli method path query data headers).

(** One iteration of the loop, spelled out. *)
Lemma loop_unfold (fuel : nat) (retries try : Z) resp err (t : trace) :
  try <= retries ->
  loop (S fuel) retries try resp err t =
  match attempt (t ++ [EvAttempt]) with
  | Returned (sr, None) t1 => Returned (Some sr, None) t1
  | Returned (sr, Some e) t1 =>
      if retryable (statusCode sr) then
        match tryProxy w cli (t1 ++ [EvProbe]) with
        | Returned _ t2 =>
            loop fuel retries (wrapInt (try + 1)) (Some sr) (Some e) (t2 ++ [EvSleep 1])
        | Panicked t2 => Panicked t2
        | OutOfFuel t2 => OutOfFuel t2
        end
      else Returned (Some sr, Some e) t1
  | Panicked t1 => Panicked t1
  | OutOfFuel t1 => OutOfFuel t1
  end.
Proof.
  intros H. apply Z.leb_le in H. simpl. rewrite H. run.
  destruct (attempt (t ++ [EvAttempt])) as [[sr [e|]] t1|t1|t1]; try reflexivity.
  destruct (retryable (statusCode sr)); [|reflexivity]. run.
  destruct (tryProxy w cli (t1 ++ [EvProbe])) as [r t2|t2|t2]; reflexivity.
Qed.

Lemma loop_out_of_fuel (retries try : Z) resp err (t : trace) :
  try <= retries -> loop 0%nat retries try resp err t = OutOfFuel t.
Proof. intros H. apply Z.leb_le in H. simpl. now rewrite H. Qed.

(** What an attempt adds to the trace, and that it is the prepared
    request. *)
Lemma attempt_adds (t : trace) :
  exists l,
    traceOf (attempt t) = t ++ l
    /\ steps l = []
    /\ Forall (fun e => match e with
                        | EvDo req => exists req0,
                            built = Some req0 /\ req = prepare w cli method req0
                        | _ => True
                        end) l
    /\ (forall t', attempt t <> OutOfFuel t').
Proof.
  destruct built as [req0|] eqn:Hb.
  - rewrite (attempt_built w cli method path query data headers req0 t Hb). cbv zeta.
    destruct (conclude_trace cli (prepare w cli method req0)
                (fst (roundTrip w t (prepare w cli method req0)))
                (snd (roundTrip w t (prepare w cli method req0)))
                (t ++ [EvDo (prepare w cli method req0)])) as [Ht Hf].
    exists [EvDo (prepare w cli method req0)]. rewrite Ht.
    split; [reflexivity|]. split; [reflexivity|]. split; [|exact Hf].
    constructor; [|constructor]. now exists req0.
  - rewrite (attempt_unbuilt w cli method path query data headers t Hb).
    exists []. rewrite app_nil_r. repeat split; try constructor. discriminate.
Qed.

Lemma probe_adds (t : trace) :
  exists l,
    traceOf (tryProxy w cli t) = t ++ l
    /\ steps l = []
    /\ Forall (fun e => match e with EvDo _ => False | _ => True end) l
    /\ (forall t', tryProxy w cli t <> OutOfFuel t').
Proof.
  unfold tryProxy. run.
  destruct (plainGet w t (proxyUrl cli)) as [[pr|] [e|]]; simpl;
    try (eexists; split; [reflexivity|]; split; [reflexivity|];
         split; [repeat constructor|discriminate]).
  destruct (StatusCode pr =? 403); simpl;
    try (eexists; split; [reflexivity|]; split; [reflexivity|];
         split; [repeat constructor|discriminate]).
  destruct (Regexp.FindSubmatch proxyPattern _) as [|m0 [|m1 ms]]; simpl;
    try (eexists; split; [reflexivity|]; split; [reflexivity|];
         split; [repeat constructor|discriminate]).
  destruct (plainGet w _ _) as [[r|] e2]; simpl; run; rewrite <- app_assoc;
    (eexists; split; [reflexivity|]; split; [reflexivity|];
     split; [repeat constructor|discriminate]).
Qed.

Abbreviation prepared :=
  (fun e => match e with
            | EvDo req => exists req0, built = Some req0 /\ req = prepare w cli method req0
            | _ => True
            end).

Lemma prepared_quiet (l : trace) :
  Forall (fun e => match e with EvDo _ => False | _ => True end) l -> Forall prepared l.
Proof.
  intros H. eapply Forall_impl; [exact H|].
  intros [] Hx; simpl in *; try exact I; contradiction.
Qed.

(** The trace of the loop, for any network and any fuel: whole rounds and
    a tail, every request sent being the prepared one, and no more
    iterations than the budget leaves. *)
Lemma loop_shape (fuel : nat) :
  forall (N try : Z) resp err (t : trace),
  exists (k : nat) (tail l : trace),
    traceOf (loop fuel N try resp err t) = t ++ l
    /\ steps l = concat (replicate k round) ++ tail
    /\ isTail tail
    /\ (k <= fuel)%nat
    /\ Forall prepared l
    /\ (0 <= try -> N < Strconv.maxInt ->
        Z.of_nat k + Z.of_nat (attempts tail) <= Z.max 0 (N + 1 - try)).
Proof.
  unfold Strconv.maxInt.
  induction fuel as [|fuel IH]; intros N try resp err t.
  - exists 0%nat, [], []. rewrite app_nil_r.
    assert (Hnone : 0 <= try -> N < 2 ^ 63 - 1 ->
                    Z.of_nat 0 + Z.of_nat (attempts []) <= Z.max 0 (N + 1 - try)).
    { intros _ _. change (attempts []) with 0%nat. lia. }
    destruct (Z_le_gt_dec try N) as [Hle|Hgt].
    + rewrite loop_out_of_fuel by exact Hle.
      split; [reflexivity|]. split; [reflexivity|]. split; [left; reflexivity|].
      split; [lia|]. split; [constructor|exact Hnone].
    + rewrite loop_done by lia.
      split; [reflexivity|]. split; [reflexivity|]. split; [left; reflexivity|].
      split; [lia|]. split; [constructor|exact Hnone].
  - destruct (Z_le_gt_dec try N) as [Hle|Hgt].
    2:{ exists 0%nat, [], []. rewrite app_nil_r, loop_done by lia.
        split; [reflexivity|]. split; [reflexivity|]. split; [left; reflexivity|].
        split; [lia|]. split; [constructor|].
        intros _ _. change (attempts []) with 0%nat. lia. }
    rewrite loop_unfold by exact Hle.
    destruct (attempt_adds (t ++ [EvAttempt])) as (l1 & H1 & Hs1 & Hp1 & Hn1).
    assert (Hone : exists (k : nat) (tail l : trace),
               (t ++ [EvAttempt]) ++ l1 = t ++ l
               /\ steps l = concat (replicate k round) ++ tail
               /\ isTail tail /\ (k <= S fuel)%nat /\ Forall prepared l
               /\ (0 <= try -> N < 2 ^ 63 - 1 ->
                   Z.of_nat k + Z.of_nat (attempts tail) <= Z.max 0 (N + 1 - try))).
    { exists 0%nat, [EvAttempt], ([EvAttempt] ++ l1).
      rewrite <- app_assoc, steps_app, Hs1.
      split; [reflexivity|]. split; [reflexivity|].
      split; [right; left; reflexivity|]. split; [lia|]. split.
      - apply Forall_app. split; [repeat constructor|exact Hp1].
      - intros _ _. change (attempts [EvAttempt]) with 1%nat. lia. }
    destruct (attempt (t ++ [EvAttempt])) as [[sr [e|]] t1|t1|t1] eqn:Ha;
      simpl in H1; subst t1.
    + destruct (retryable (statusCode sr)); [|exact Hone].
      destruct (probe_adds (((t ++ [EvAttempt]) ++ l1) ++ [EvProbe]))
        as (l2 & H2 & Hs2 & Hp2 & Hn2).
      destruct (tryProxy w cli _) as [r t2|t2|t2] eqn:Hp; simpl in H2; subst t2.
      * destruct (IH N (wrapInt (try + 1)) (Some sr) (Some e)
                    (((((t ++ [EvAttempt]) ++ l1) ++ [EvProbe]) ++ l2) ++ [EvSleep 1]))
          as (k & tail & l & Ht & Hs & Htail & Hk & Hf & Hb).
        exists (S k), tail, ([EvAttempt] ++ l1 ++ [EvProbe] ++ l2 ++ [EvSleep 1] ++ l).
        rewrite Ht. split; [now rewrite <- !app_assoc|].
        split.
        { rewrite !steps_app, Hs1, Hs2, Hs. reflexivity. }
        split; [exact Htail|]. split; [lia|]. split.
        { apply Forall_app. split; [repeat constructor|].
          apply Forall_app. split; [exact Hp1|].
          apply Forall_app. split; [repeat constructor|].
          apply Forall_app. split; [now apply prepared_quiet|].
          apply Forall_app. split; [repeat constructor|exact Hf]. }
        intros H0 HN. rewrite wrapInt_small in Hb by lia.
        specialize (Hb ltac:(lia) HN). lia.
      * exists 0%nat, [EvAttempt; EvProbe], ([EvAttempt] ++ l1 ++ [EvProbe] ++ l2).
        cbn [traceOf]. split; [now rewrite <- !app_assoc|].
        split.
        { rewrite !steps_app, Hs1, Hs2. reflexivity. }
        split; [right; right; reflexivity|]. split; [lia|]. split.
        { apply Forall_app. split; [repeat constructor|].
          apply Forall_app. split; [exact Hp1|].
          apply Forall_app. split; [repeat constructor|now apply prepared_quiet]. }
        intros _ _. change (attempts [EvAttempt; EvProbe]) with 1%nat. lia.
      * exfalso. now apply (Hn2 _ eq_refl).
    + exact Hone.
    + exact Hone.
    + exfalso. now apply (Hn1 _ eq_refl).
Qed.

(** What the loop returns: what it was given, when no iteration ran, or
    the envelope of an attempt. *)
Lemma loop_result (fuel : nat) :
  forall (N try : Z) resp err (t t' : trace) r e,
    loop fuel N try resp err t = Returned (r, e) t' ->
    (N < try /\ r = resp /\ e = err /\ t' = t)
    \/ (exists sr,
          r = Some sr
          /\ match e with
             | None => inSuccessRange (statusCode sr)
                       /\ is_Some (body sr) /\ is_Some (header sr)
             | Some _ => body sr = None /\ header sr = None
             end).
Proof.
  induction fuel as [|fuel IH]; intros N try resp err t t' r e H.
  - destruct (Z_le_gt_dec try N) as [Hle|Hgt].
    + rewrite loop_out_of_fuel in H by exact Hle. discriminate.
    + rewrite loop_done in H by lia. injection H as <- <- <-. left. repeat split. lia.
  - destruct (Z_le_gt_dec try N) as [Hle|Hgt].
    2:{ rewrite loop_done in H by lia. injection H as <- <- <-.
        left. repeat split. lia. }
    rewrite loop_unfold in H by exact Hle.
    destruct (attempt (t ++ [EvAttempt])) as [[sr [e0|]] t1|t1|t1] eqn:Ha;
      try discriminate.
    + pose proof (proj1 (attempt_returns w cli method path query data headers _ _ _ _ Ha))
        as Hret. simpl in Hret.
      destruct (retryable (statusCode sr)).
      * destruct (tryProxy w cli (t1 ++ [EvProbe])) as [x t2|t2|t2]; try discriminate.
        apply IH in H as [(_ & -> & -> & _)|H]; [|right; exact H].
        right. exists sr. split; [reflexivity|exact Hret].
      * injection H as <- <- <-. right. exists sr. split; [reflexivity|exact Hret].
    + pose proof (proj1 (attempt_returns w cli method path query data headers _ _ _ _ Ha))
        as Hret. simpl in Hret.
      injection H as <- <- <-. right. exists sr. split; [reflexivity|exact Hret].
Qed.

(** The loop ends within the iterations the budget leaves. *)
Lemma loop_ends (fuel : nat) :
  forall (N try : Z) resp err (t : trace),
    0 <= try -> N < Strconv.maxInt ->
    Z.max 0 (N + 1 - try) <= Z.of_nat fuel ->
    forall t', loop fuel N try resp err t <> OutOfFuel t'.
Proof.
  unfold Strconv.maxInt.
  induction fuel as [|fuel IH]; intros N try resp err t H0 HN Hf t'.
  - rewrite loop_done by lia. discriminate.
  - destruct (Z_le_gt_dec try N) as [Hle|Hgt]; [|rewrite loop_done by lia; discriminate].
    rewrite loop_unfold by exact Hle.
    destruct (attempt_adds (t ++ [EvAttempt])) as (l1 & _ & _ & _ & Hn1).
    destruct (attempt (t ++ [EvAttempt])) as [[sr [e0|]] t1|t1|t1]; try discriminate.
    + destruct (retryable (statusCode sr)); [|discriminate].
      destruct (probe_adds (t1 ++ [EvProbe])) as (l2 & _ & _ & _ & Hn2).
      destruct (tryProxy w cli (t1 ++ [EvProbe])) as [x t2|t2|t2]; try discriminate.
      * rewrite wrapInt_small by lia. apply IH; lia.
      * exfalso. now apply (Hn2 _ eq_refl).
    + exfalso. now apply (Hn1 _ eq_refl).
Qed.

Lemma wrapInt_range (z : Z) : Strconv.minInt <= wrapInt z <= Strconv.maxInt.
Proof.
  unfold wrapInt, Strconv.minInt, Strconv.maxInt.
  pose proof (Z.mod_pos_bound (z + 2 ^ 63) (2 ^ 64) ltac:(lia)). lia.
Qed.

(** With the largest [int] as budget the test [try <= retries] never
    fails: against attempts that keep failing with 407, 403 or -1 and
    probes that return, the loop uses up any fuel. *)
Lemma loop_endless (fuel : nat) :
  (forall t, exists sr e t',
      attempt t = Returned (sr, Some e) t' /\ retryable (statusCode sr) = true) ->
  (forall t, exists r t', tryProxy w cli t = Returned r t') ->
  forall (try : Z) resp err (t : trace),
    try <= Strconv.maxInt ->
    exists t',
      loop fuel Strconv.maxInt try resp err t = OutOfFuel t'
      /\ attempts t' = (attempts t + fuel)%nat.
Proof.
  intros Hatt Hprobe.
  induction fuel as [|fuel IH]; intros try resp err t Htry.
  - exists t. rewrite loop_out_of_fuel by exact Htry. split; [reflexivity|lia].
  - rewrite loop_unfold by exact Htry.
    destruct (Hatt (t ++ [EvAttempt])) as (sr & e & t1 & Ha & Hr).
    destruct (attempt_adds (t ++ [EvAttempt])) as (l1 & H1 & Hs1 & _ & _).
    rewrite Ha in H1 |- *. simpl in H1. subst t1. rewrite Hr.
    destruct (Hprobe (((t ++ [EvAttempt]) ++ l1) ++ [EvProbe])) as (x & t2 & Hp).
    destruct (probe_adds (((t ++ [EvAttempt]) ++ l1) ++ [EvProbe])) as (l2 & H2 & Hs2 & _ & _).
    rewrite Hp in H2 |- *. simpl in H2. subst t2.
    destruct (IH (wrapInt (try + 1)) (Some sr) (Some e)
                (((((t ++ [EvAttempt]) ++ l1) ++ [EvProbe]) ++ l2) ++ [EvSleep 1])
                (proj2 (wrapInt_range _))) as (t' & Hl & Hn).
    exists t'. split; [exact Hl|]. rewrite Hn.
    rewrite (attempts_other _ (EvSleep 1)) by reflexivity.
    rewrite (attempts_quiet_r _ l2) by exact Hs2.
    rewrite (attempts_other _ EvProbe) by reflexivity.
    rewrite (attempts_quiet_r _ l1) by exact Hs1.
    rewrite attempts_snoc. lia.
Qed.

Lemma prepare_target (req0 : Request) :
  Scheme (ReqURL (prepare w cli method req0)) = scheme cli
  /\ Host (ReqURL (prepare w cli method req0)) = addr cli.
Proof.
  unfold prepare. destruct (_ && _);
    destruct (syscall_Getenv w "DOCKER_USER_AGENT") as [ua|];
    try destruct (GoStrings.isEmpty ua); split; reflexivity.
Qed.

Lemma tail_attempts (tail : trace) :
  isTail tail -> steps tail = tail.
Proof. intros [->|[->| ->]]; reflexivity. Qed.

Lemma attempts_rounds (k : nat) (tail : trace) :
  length (List.filter isAttempt (concat (replicate k round) ++ tail))
  = (k + length (List.filter isAttempt tail))%nat.
Proof. induction k as [|k IH]; [reflexivity|]. simpl. now rewrite IH. Qed.

(** X1. Whatever the network answers and however the dispatch ends
    (return, panic, fuel used up), the steps the dispatcher adds are whole
    rounds of attempt, probe, one-second sleep, followed by nothing, by one
    more attempt, or by an attempt and a probe: no sleep without a probe
    before it, no probe without an attempt before it, no sleep of another
    length. *)
Theorem dispatch_steps_shape (fuel : nat) (t : trace) :
  exists (k : nat) (tail : trace),
    steps (traceOf (dispatch fuel t)) = steps t ++ concat (replicate k round) ++ tail
    /\ isTail tail
    /\ (k <= fuel)%nat.
Proof.
  unfold sendClientRequest.
  destruct (loop_shape fuel (retryBudget w) 0 None
              (Some (errorString "no requests made")) t)
    as (k & tail & l & Ht & Hs & Htail & Hk & _ & _).
  exists k, tail. rewrite Ht, steps_app, Hs. auto.
Qed.

(** X2. A dispatch never makes more attempts than the budget plus one
    (none for a negative budget), whatever the network answers and however
    it ends, for every budget below the largest [int]. *)
Theorem dispatch_attempts_bounded (fuel : nat) (t : trace) :
  retryBudget w < Strconv.maxInt ->
  (attempts (traceOf (dispatch fuel t)) <= attempts t + Z.to_nat (retryBudget w + 1))%nat.
Proof.
  intros HN. unfold sendClientRequest.
  destruct (loop_shape fuel (retryBudget w) 0 None
              (Some (errorString "no requests made")) t)
    as (k & tail & l & Ht & Hs & Htail & _ & _ & Hb).
  specialize (Hb ltac:(lia) HN).
  assert (Hl : attempts l = (k + attempts tail)%nat).
  { unfold attempts. rewrite Hs, (tail_attempts tail Htail). apply attempts_rounds. }
  rewrite Ht, attempts_app, Hl. lia.
Qed.

(** X3. For every budget [N] below the largest [int], the loop is over
    after at most [N+1] iterations: with that much fuel the dispatch
    returns or panics, whatever the network answers. *)
Theorem dispatch_ends_within_budget (fuel : nat) (t : trace) :
  retryBudget w < Strconv.maxInt ->
  (Z.to_nat (retryBudget w + 1) <= fuel)%nat ->
  forall t', dispatch fuel t <> OutOfFuel t'.
Proof.
  intros HN Hf. unfold sendClientRequest. apply loop_ends; lia.
Qed.

(** X4. With the largest [int] as budget, attempts that always fail with
    407, 403 or -1 and probes that return, the dispatch never ends: every
    amount of fuel is used up, one attempt per unit. The loop counter
    wraps around and [try <= retries] holds for every [int]. *)
Theorem dispatch_endless_at_largest_budget (fuel : nat) (t : trace) :
  retryBudget w = Strconv.maxInt ->
  (forall t, exists sr e t',
      attempt t = Returned (sr, Some e) t' /\ retryable (statusCode sr) = true) ->
  (forall t, exists r t', tryProxy w cli t = Returned r t') ->
  exists t',
    dispatch fuel t = OutOfFuel t'
    /\ attempts t' = (attempts t + fuel)%nat.
Proof.
  intros HN Hatt Hprobe. unfold sendClientRequest. rewrite HN.
  apply loop_endless; try assumption. unfold Strconv.maxInt. lia.
Qed.

(** X5. What a caller gets back. With a nil error the envelope is there,
    its status is in [200,400) and its body and headers are populated;
    with an error and an envelope, body and headers are nil; and a nil
    envelope comes only from a negative budget, with the error "no
    requests made" and nothing done. *)
Theorem dispatch_result (fuel : nat) (t t' : trace)
    (resp : option serverResponse) (err : option error) :
  dispatch fuel t = Returned (resp, err) t' ->
  (err = None ->
   exists sr, resp = Some sr /\ inSuccessRange (statusCode sr)
              /\ is_Some (body sr) /\ is_Some (header sr))
  /\ (forall sr, resp = Some sr -> err <> None -> body sr = None /\ header sr = None)
  /\ (resp = None ->
      retryBudget w < 0 /\ err = Some (errorString "no requests made") /\ t' = t).
Proof.
  unfold sendClientRequest. intros H.
  apply loop_result in H as [(HN & -> & -> & ->)|(sr & -> & H)].
  - split; [discriminate|]. split; [discriminate|]. intros _. repeat split. lia.
  - split; [|split].
    + intros ->. exists sr. split; [reflexivity|exact H].
    + intros sr' [= <-] He. destruct err; [exact H|contradiction].
    + discriminate.
Qed.

(** X6. Every request a dispatch hands to the client's transport goes to
    the client's address under the client's scheme, whatever URL the
    request was built with. *)
Theorem dispatch_requests_go_to_daemon (fuel : nat) (t : trace) :
  exists l,
    traceOf (dispatch fuel t) = t ++ l /\ Forall (sentToDaemon cli) l.
Proof.
  unfold sendClientRequest.
  destruct (loop_shape fuel (retryBudget w) 0 None
              (Some (errorString "no requests made")) t)
    as (k & tail & l & Ht & _ & _ & _ & Hf & _).
  exists l. split; [exact Ht|].
  eapply Forall_impl; [exact Hf|].
  intros [| |req| |] Hx; simpl in *; try exact I.
  destruct Hx as (req0 & _ & ->). apply prepare_target.
Qed.

End Invariants.

(** ** Content type, verbs, probe, registry *)

Section ContentType.

Context {ext : Externals}.
Variable w : World.
Variable cli : Client.
Variables method path : string.
Variable query : Header.
Variable data : option string.
Variable headers : option Header.

Lemma user_agent_keeps_content_type (h : Header) (v : string) :
  HeaderDel "User-Agent" h !! "Content-Type" = h !! "Content-Type"
  /\ HeaderSet "User-Agent" v h !! "Content-Type" = h !! "Content-Type".
Proof.
  unfold HeaderDel, HeaderSet. rewrite canon_user_agent. split.
  - now apply lookup_delete_ne.
  - now apply lookup_insert_ne.
Qed.

Lemma HeaderGet_lookup (h h' : Header) (k : string) :
  h !! Textproto.CanonicalMIMEHeaderKey k = h' !! Textproto.CanonicalMIMEHeaderKey k ->
  HeaderGet k h = HeaderGet k h'.
Proof. unfold HeaderGet. now intros ->. Qed.

(** What [prepare] does to the content type. *)
Lemma prepare_content_type (req0 : Request) :
  let h := ReqHeader (prepare w cli method req0) in
  (expectsPayload method = true ->
   HeaderGet "Content-Type" h <> ""
   /\ (HeaderGet "Content-Type" (ReqHeader req0) = "" ->
       h !! "Content-Type" = Some ["text/plain"])
   /\ (HeaderGet "Content-Type" (ReqHeader req0) <> "" ->
       h !! "Content-Type" = ReqHeader req0 !! "Content-Type"))
  /\ (expectsPayload method = false ->
      h !! "Content-Type" = ReqHeader req0 !! "Content-Type").
Proof.
  cbv zeta. unfold prepare.
  set (r0 := withURL _ req0).
  set (r1 := if _ && _ then _ else r0).
  assert (Hua : ReqHeader
                  match syscall_Getenv w "DOCKER_USER_AGENT" with
                  | Some userAgent =>
                      if GoStrings.isEmpty userAgent
                      then withHeader (HeaderDel "User-Agent" (ReqHeader r1)) r1
                      else withHeader (HeaderSet "User-Agent" userAgent (ReqHeader r1)) r1
                  | None => r1
                  end !! "Content-Type" = ReqHeader r1 !! "Content-Type").
  { destruct (syscall_Getenv w "DOCKER_USER_AGENT") as [ua|]; [|reflexivity].
    destruct (GoStrings.isEmpty ua).
    - apply (proj1 (user_agent_keeps_content_type (ReqHeader r1) "")).
    - apply (proj2 (user_agent_keeps_content_type (ReqHeader r1) ua)). }
  assert (Hget : forall x : Request,
             ReqHeader x !! "Content-Type" = ReqHeader r1 !! "Content-Type" ->
             HeaderGet "Content-Type" (ReqHeader x) = HeaderGet "Content-Type" (ReqHeader r1)).
  { intros x Hx. apply HeaderGet_lookup. rewrite canon_content_type. exact Hx. }
  rewrite Hua. rewrite (Hget _ Hua). clear Hua Hget. subst r1.
  change (ReqHeader r0) with (ReqHeader req0).
  split.
  - intros Hm. rewrite Hm. simpl.
    destruct (String.eqb_spec (HeaderGet "Content-Type" (ReqHeader req0)) "") as [He|Hne].
    + simpl. unfold HeaderSet, HeaderGet at 1. rewrite canon_content_type.
      rewrite lookup_insert_eq. split; [discriminate|]. split; [reflexivity|].
      intros Hc. contradiction.
    + split; [exact Hne|]. split; [contradiction|reflexivity].
  - intros Hm. now rewrite Hm.
Qed.

(** X7. The content type of the request an attempt sends. For POST and
    PUT it is never empty: a request built without one gets "text/plain",
    one built with one keeps it. For every other method the entry is left
    as built. The user-agent override does not touch it. *)
Theorem attempt_content_type (req0 : Request) (t : trace) :
  fst (newRequest cli method path query (payload method data) headers) = Some req0 ->
  exists req,
    traceOf (doSendClientRequest w cli method path query data headers t) = t ++ [EvDo req]
    /\ (expectsPayload method = true ->
        HeaderGet "Content-Type" (ReqHeader req) <> ""
        /\ (HeaderGet "Content-Type" (ReqHeader req0) = "" ->
            ReqHeader req !! "Content-Type" = Some ["text/plain"])
        /\ (HeaderGet "Content-Type" (ReqHeader req0) <> "" ->
            ReqHeader req !! "Content-Type" = ReqHeader req0 !! "Content-Type"))
    /\ (expectsPayload method = false ->
        ReqHeader req !! "Content-Type" = ReqHeader req0 !! "Content-Type").
Proof.
  intros Hb. exists (prepare w cli method req0). split.
  - rewrite (attempt_built w cli method path query data headers req0 t Hb). cbv zeta.
    apply conclude_trace.
  - apply prepare_content_type.
Qed.

End ContentType.

Section VerbProperties.

Context {ext : Externals}.
Variable w : World.
Variable Any : Type.
Variable json_Encode : Any -> string + error.
Variable cli : Client.
Variable path : string.
Variable query : Header.
Variable headers : option Header.

Abbreviation sendRequest := (Verbs.sendRequest w Any json_Encode).

(** X8. A body that cannot be encoded stops [post] and [put] (and every
    [sendRequest]) before the dispatcher is entered: the encoder's error
    is returned as it is with a nil envelope, nothing is sent, nothing is
    retried, whatever the budget and the fuel. *)
Theorem sendRequest_encoding_error (fuel : nat) (method : string) (v : Any)
    (e : error) (t : trace) :
  json_Encode v = inr e ->
  sendRequest fuel cli method path query (Some v) headers t = Returned (None, Some e) t
  /\ Verbs.post w Any json_Encode fuel cli path query (Some v) headers t
     = Returned (None, Some e) t
  /\ Verbs.put w Any json_Encode fuel cli path query (Some v) headers t
     = Returned (None, Some e) t.
Proof.
  intros H. unfold Verbs.post, Verbs.put, Verbs.sendRequest, Verbs.encodeData.
  rewrite H. repeat split.
Qed.

(** The header map [sendRequest] passes on for a body. *)
Abbreviation withJSON :=
  (Some (<["Content-Type" := ["application/json"]]> (default ∅ headers))).

Lemma json_request_content_type (method : string) (bytes : string) (req0 : Request) :
  fst (newRequest cli method path query (payload method (Some bytes)) withJSON) = Some req0 ->
  ReqHeader (prepare w cli method req0) !! "Content-Type" = Some ["application/json"].
Proof.
  intros Hb. apply newRequest_some in Hb as (r & _ & _ & Hh). cbv zeta in Hh.
  assert (H0 : ReqHeader req0 !! "Content-Type" = Some ["application/json"]).
  { rewrite Hh. apply overlay_lookup. apply lookup_insert_eq. }
  assert (Hg : HeaderGet "Content-Type" (ReqHeader req0) = "application/json").
  { unfold HeaderGet. rewrite canon_content_type, H0. reflexivity. }
  destruct (prepare_content_type w cli method req0) as [Ht Hf].
  destruct (expectsPayload method) eqn:Hm.
  - destruct (Ht eq_refl) as (_ & _ & Hk). rewrite Hk; [exact H0|].
    rewrite Hg. discriminate.
  - now rewrite (Hf eq_refl).
Qed.

(** X9. With a body that encodes, every request [sendRequest] (so [post]
    and [put]) hands to the transport carries the content type
    "application/json", whatever the client's headers, the caller's own
    content type, the user-agent override and the number of attempts. *)
Theorem sendRequest_announces_json (fuel : nat) (method : string) (v : Any)
    (bytes : string) (t : trace) :
  json_Encode v = inl bytes ->
  exists l,
    traceOf (sendRequest fuel cli method path query (Some v) headers t) = t ++ l
    /\ Forall (fun e => match e with
                        | EvDo req =>
                            ReqHeader req !! "Content-Type" = Some ["application/json"]
                        | _ => True
                        end) l.
Proof.
  intros H. unfold Verbs.sendRequest, Verbs.encodeData. rewrite H.
  unfold sendClientRequest.
  destruct (loop_shape w cli method path query (Some bytes) withJSON fuel
              (retryBudget w) 0 None (Some (errorString "no requests made")) t)
    as (k & tail & l & Ht & _ & _ & _ & Hf & _).
  exists l. split; [exact Ht|].
  eapply Forall_impl; [exact Hf|].
  intros [| |req| |] Hx; simpl in *; try exact I.
  destruct Hx as (req0 & Hb & ->). now apply (json_request_content_type method bytes).
Qed.

End VerbProperties.

Section ProbeProperties.

Context {ext : Externals}.
Variable w : World.
Variable cli : Client.

(** X10. The probe makes one plain GET, to the client's
    scheme://address/v<version>/info, and at most one more, to the URL
    taken from the body of a 403 answer; it sends nothing through the
    client's transport, never sleeps and always ends. *)
Theorem tryProxy_requests (t : trace) :
  exists l,
    traceOf (tryProxy w cli t) = t ++ EvGet (proxyUrl cli) :: l
    /\ (l = []
        \/ exists pr,
            plainGet w t (proxyUrl cli) = (Some pr, None)
            /\ StatusCode pr = 403
            /\ l = [EvGet (nth 1 (Regexp.FindSubmatch proxyPattern
                                    (content (RespBody pr))) "")])
    /\ (forall t', tryProxy w cli t <> OutOfFuel t').
Proof.
  unfold tryProxy. run.
  destruct (plainGet w t (proxyUrl cli)) as [[pr|] [e|]] eqn:Hg; simpl;
    try (exists []; split; [reflexivity|]; split; [left; reflexivity|discriminate]).
  destruct (Z.eqb_spec (StatusCode pr) 403) as [Hs|Hs]; simpl;
    try (exists []; split; [reflexivity|]; split; [left; reflexivity|discriminate]).
  destruct (Regexp.FindSubmatch proxyPattern (content (RespBody pr)))
    as [|m0 [|m1 ms]] eqn:Hm; simpl;
    try (exists []; split; [reflexivity|]; split; [left; reflexivity|discriminate]).
  exists [EvGet m1]. split; [|split].
  - destruct (plainGet w _ m1) as [[r|] e2]; simpl; run; now rewrite <- app_assoc.
  - right. exists pr. split; [reflexivity|]. split; [exact Hs|].
    try rewrite Hm. reflexivity.
  - intros t'. destruct (plainGet w _ m1) as [[r|] e2]; simpl; run; discriminate.
Qed.

(** X11. The probe reports success (a nil error) only when the diagnostic
    call was answered 403, a URL was found in the body and the call to
    that URL produced a response; both calls are then in the trace. *)
Theorem tryProxy_nil_only_after_unlock (t t' : trace) :
  tryProxy w cli t = Returned None t' ->
  exists pr m0 m1 ms r e,
    plainGet w t (proxyUrl cli) = (Some pr, None)
    /\ StatusCode pr = 403
    /\ Regexp.FindSubmatch proxyPattern (content (RespBody pr)) = m0 :: m1 :: ms
    /\ plainGet w (t ++ [EvGet (proxyUrl cli)]) m1 = (Some r, e)
    /\ t' = t ++ [EvGet (proxyUrl cli); EvGet m1].
Proof.
  unfold tryProxy. run.
  destruct (plainGet w t (proxyUrl cli)) as [[pr|] [e|]] eqn:Hg; simpl; try discriminate.
  destruct (Z.eqb_spec (StatusCode pr) 403) as [Hs|Hs]; simpl; try discriminate.
  destruct (Regexp.FindSubmatch proxyPattern (content (RespBody pr)))
    as [|m0 [|m1 ms]] eqn:Hm; simpl; try discriminate.
  destruct (plainGet w _ m1) as [[r|] e2] eqn:H2; simpl; run; try discriminate.
  intros [= <-]. exists pr, m0, m1, ms, r, e2.
  repeat split; try assumption. now rewrite <- app_assoc.
Qed.

End ProbeProperties.

(** X12. The certificates directory is never the empty string: it is the
    value of DOCKER_REGISTRY_CERTS_PATH when that is set and not empty, and
    "/etc/docker/certs.d" when the variable is unset or set to the empty
    string. *)
Theorem certsDir_never_empty (w : World) :
  Registry.certsDir w <> ""
  /\ (forall v, environ w !! "DOCKER_REGISTRY_CERTS_PATH" = Some v -> v <> "" ->
      Registry.certsDir w = v)
  /\ (environ w !! "DOCKER_REGISTRY_CERTS_PATH" = None
      \/ environ w !! "DOCKER_REGISTRY_CERTS_PATH" = Some "" ->
      Registry.certsDir w = "/etc/docker/certs.d").
Proof.
  unfold Registry.certsDir, os_Getenv. split; [|split].
  - destruct (environ w !! "DOCKER_REGISTRY_CERTS_PATH") as [[|c v]|]; simpl; discriminate.
  - intros v -> Hv. simpl. destruct v; [contradiction|reflexivity].
  - intros [-> | ->]; reflexivity.
Qed.

(** ** The invariants on concrete dispatches *)

Section ConcreteInvariants.

Import Demo.

Abbreviation dispatchInfo w fuel :=
  (sendClientRequest w fuel cli "GET" "/info" ∅ None None).

(** X2 at a budget of 2 behind a proxy that answers 403. *)
Lemma dispatch_attempts_bounded_witness :
  (attempts (traceOf (dispatchInfo (blocked (Some "2")) 7 []))
   <= attempts [] + Z.to_nat (retryBudget (blocked (Some "2")) + 1))%nat.
Proof.
  apply (dispatch_attempts_bounded (blocked (Some "2")) cli "GET" "/info" ∅ None None 7 []).
  vm_compute. reflexivity.
Defined.

(** X3 at a budget of 2 with fuel 3. *)
Lemma dispatch_ends_within_budget_witness :
  dispatchInfo (blocked (Some "2")) 3 [] <> OutOfFuel [].
Proof.
  apply (dispatch_ends_within_budget (blocked (Some "2")) cli "GET" "/info" ∅ None None 3 []).
  - vm_compute. reflexivity.
  - change (retryBudget (blocked (Some "2"))) with 2. simpl. lia.
Defined.

(** X4 at DOCKER_HTTP_RETRY=9223372036854775807 behind the same proxy. *)
Lemma dispatch_endless_at_largest_budget_witness :
  exists t',
    dispatchInfo (blocked (Some "9223372036854775807")) 4 [] = OutOfFuel t'
    /\ attempts t' = (attempts [] + 4)%nat.
Proof.
  apply (dispatch_endless_at_largest_budget (blocked (Some "9223372036854775807"))
           cli "GET" "/info" ∅ None None 4 []).
  - vm_compute. reflexivity.
  - intros t. eexists _, _, _. split; [apply GET_blocked|reflexivity].
  - intros t. eexists _, _. apply probe_blocked.
Defined.

(** X5 at a daemon that answers 500. *)
Lemma dispatch_result_witness :
  dispatchInfo (daemon (Some "1") None 500 "boom") 2 []
  = Returned (Some {| body := None; header := None; statusCode := 500 |},
              Some (errorString "Error response from daemon: boom"))
             ([EvAttempt]
                ++ [EvDo (prepare (daemon (Some "1") None 500 "boom") cli "GET"
                            (request "GET" "/info" None))])
  /\ body {| body := None; header := None; statusCode := 500 |} = None
  /\ header {| body := None; header := None; statusCode := 500 |} = None.
Proof.
  split; [apply scenario_server_error_not_retried|].
  apply (proj1 (proj2 (dispatch_result (daemon (Some "1") None 500 "boom") cli
                         "GET" "/info" ∅ None None 2 [] _ _ _
                         scenario_server_error_not_retried))
           _ eq_refl).
  discriminate.
Defined.

(** X7 at a POST whose caller names the content type. *)
Lemma attempt_content_type_witness :
  exists req,
    traceOf (doSendClientRequest (daemon None None 200 "[]") cli "POST" "/build" ∅ None
               (Some {[ "Content-Type" := ["application/x-tar"] ]}) [])
    = [] ++ [EvDo req]
    /\ ReqHeader req !! "Content-Type" = Some ["application/x-tar"].
Proof.
  pose proof (request_built "POST" "/build"
                (Some {[ "Content-Type" := ["application/x-tar"] ]})
                eq_refl eq_refl) as Hb.
  destruct (newRequest_some _ _ _ _ _ _ _ Hb) as (r0 & _ & _ & Hh). cbv zeta in Hh.
  assert (H0 : ReqHeader (request "POST" "/build"
                            (Some {[ "Content-Type" := ["application/x-tar"] ]}))
               !! "Content-Type" = Some ["application/x-tar"]).
  { rewrite Hh. apply overlay_lookup. apply lookup_singleton_eq. }
  destruct (attempt_content_type (daemon None None 200 "[]") cli "POST" "/build" ∅ None
              (Some {[ "Content-Type" := ["application/x-tar"] ]}) _ [] Hb)
    as (req & Ht & Hp & _).
  exists req. split; [exact Ht|].
  destruct (Hp eq_refl) as (_ & _ & Hk).
  rewrite Hk; [exact H0|].
  unfold HeaderGet. rewrite canon_content_type, H0. discriminate.
Defined.

(** X8 at a Go channel, which encoding/json refuses. *)
Lemma sendRequest_encoding_error_witness :
  Verbs.post (blocked (Some "2")) DemoVerbs.value DemoVerbs.encode 3 cli
    "/containers/create" ∅ (Some DemoVerbs.VChan) None []
  = Returned (None, Some (errorString "json: unsupported type: chan int")) [].
Proof.
  apply (proj1 (proj2 (sendRequest_encoding_error (blocked (Some "2")) DemoVerbs.value
                         DemoVerbs.encode cli "/containers/create" ∅ None 3 "POST"
                         DemoVerbs.VChan _ [] eq_refl))).
Defined.

(** X9 at a JSON string posted behind the proxy, budget 2. *)
Lemma sendRequest_announces_json_witness :
  exists l,
    traceOf (Verbs.sendRequest (blocked (Some "2")) DemoVerbs.value DemoVerbs.encode 3 cli
               "POST" "/containers/create" ∅ (Some (DemoVerbs.VString "busybox")) None [])
    = [] ++ l
    /\ Forall (fun e => match e with
                        | EvDo req =>
                            ReqHeader req !! "Content-Type" = Some ["application/json"]
                        | _ => True
                        end) l.
Proof.
  apply (sendRequest_announces_json (blocked (Some "2")) DemoVerbs.value DemoVerbs.encode
           cli "/containers/create" ∅ None 3 "POST" (DemoVerbs.VString "busybox")
           _ [] eq_refl).
Defined.

(** The probe behind a portal that can be reached. *)
Lemma probe_portal (t : trace) :
  tryProxy DemoVerbs.portal cli t =
  Returned None (t ++ [EvGet "http://daemon:2375/v1.22/info";
                       EvGet "http://portal/login?url=http://daemon:2375/"]).
Proof.
  apply (tryProxy_second_request_answered DemoVerbs.portal cli t
           {| StatusCode := 403; RespHeader := ∅;
              RespBody := {| content := portalBody; readErr := None |} |}
           {| StatusCode := 200; RespHeader := ∅;
              RespBody := {| content := "welcome"; readErr := None |} |}
           None portalBody "http://portal/login?url=http://daemon:2375/" []);
    reflexivity.
Qed.

(** X11 behind that portal. *)
Lemma tryProxy_nil_only_after_unlock_witness :
  exists pr m0 m1 ms r e,
    plainGet DemoVerbs.portal [] (proxyUrl cli) = (Some pr, None)
    /\ StatusCode pr = 403
    /\ Regexp.FindSubmatch proxyPattern (content (RespBody pr)) = m0 :: m1 :: ms
    /\ plainGet DemoVerbs.portal ([] ++ [EvGet (proxyUrl cli)]) m1 = (Some r, e)
    /\ [] ++ [EvGet "http://daemon:2375/v1.22/info";
              EvGet "http://portal/login?url=http://daemon:2375/"]
       = [] ++ [EvGet (proxyUrl cli); EvGet m1].
Proof.
  apply (tryProxy_nil_only_after_unlock DemoVerbs.portal cli [] _ (probe_portal [])).
Defined.

End ConcreteInvariants.

(** ** Where the client crashes, and what else it returns *)

(** X13. Beside the entries the caller's overlay names and the canonical
    keys of the client's headers, [newRequest] leaves the request as
    [http.NewRequest] made it: every other header entry, the method, the
    URL and the body are unchanged. *)
Theorem newRequest_leaves_other_headers {ext : Externals} (cli : Client)
    (method path : string) (query : Header) (body : option string)
    (headers : option Header) (req : Request) (K : string) :
  fst (newRequest cli method path query body headers) = Some req ->
  (forall k c, customHTTPHeaders cli !! k = Some c ->
               Textproto.CanonicalMIMEHeaderKey k <> K) ->
  (forall hs, headers = Some hs -> hs !! K = None) ->
  exists req0,
    http_NewRequest method (getAPIPath cli path query) body = inl req0
    /\ ReqHeader req !! K = ReqHeader req0 !! K
    /\ Method req = Method req0
    /\ ReqURL req = ReqURL req0
    /\ ReqBody req = ReqBody req0.
Proof.
  intros H Hc Hh. unfold newRequest in H.
  destruct (http_NewRequest method (getAPIPath cli path query) body) as [r0|e] eqn:Hn;
    [|discriminate].
  simpl in H. injection H as <-. exists r0. split; [reflexivity|].
  split; [|repeat split]. simpl.
  assert (Hcl : map_fold (fun k v h => HeaderSet k v h) (ReqHeader r0)
                         (customHTTPHeaders cli) !! K = ReqHeader r0 !! K).
  { destruct (custom_lookup (customHTTPHeaders cli) (ReqHeader r0) K)
      as [(k & c & Hk & Hck & _)|[_ Hr]]; [|exact Hr].
    exfalso. exact (Hc k c Hk Hck). }
  destruct headers as [hs|]; [|exact Hcl].
  rewrite overlay_other by (now apply Hh). exact Hcl.
Qed.

Section Crashes.

Context {ext : Externals}.
Variable w : World.
Variable cli : Client.
Variables method path : string.
Variable query : Header.
Variable data : option string.
Variable headers : option Header.

Abbreviation built :=
  (fst (newRequest cli method path query (payload method data) headers)).
Abbreviation attempt := (doSendClientRequest w cli method path query data headers).
Abbreviation dispatch :=
  (fun fuel => sendClientRequest w fuel cli method path query data headers).

(** What one attempt comes to, by the request built and the answer of
    the transport. *)
Lemma attempt_outcome (t : trace) :
  match built with
  | None => attempt t = Panicked t
  | Some req0 =>
      let req := prepare w cli method req0 in
      match roundTrip w t req with
      | (None, None) => attempt t = Panicked (t ++ [EvDo req])
      | _ => exists r, attempt t = Returned r (t ++ [EvDo req])
      end
  end.
Proof.
  destruct built as [req0|] eqn:Hb.
  - rewrite (attempt_built w cli method path query data headers req0 t Hb). cbv zeta.
    destruct (roundTrip w t (prepare w cli method req0)) as [[r|] [e|]] eqn:Hrt;
      unfold conclude; simpl; run; try reflexivity; try (eexists; reflexivity).
    destruct ((StatusCode r <? 200) || (400 <=? StatusCode r));
      [destruct (readErr (RespBody r));
       [|destruct (GoStrings.isEmpty (content (RespBody r)))]|];
      eexists; reflexivity.
  - exact (attempt_unbuilt w cli method path query data headers t Hb).
Qed.

(** X14. One attempt crashes in exactly two cases: the request could not
    be built (the nil request of line 143 is used at line 144), or the
    transport returned neither a response nor an error; in every other
    case it returns. *)
Theorem attempt_panics_iff (t : trace) :
  ((exists t', attempt t = Panicked t')
   <-> built = None
       \/ exists req0,
           built = Some req0
           /\ roundTrip w t (prepare w cli method req0) = (None, None))
  /\ ((exists r t', attempt t = Returned r t')
      \/ exists t', attempt t = Panicked t').
Proof.
  pose proof (attempt_outcome t) as H.
  destruct built as [req0|] eqn:Hb; cbv zeta in H.
  - destruct (roundTrip w t (prepare w cli method req0)) as [[r|] [e|]] eqn:Hrt;
      try (lazymatch type of H with ex _ => destruct H as [x H] end; rewrite H;
           split; [|left; eexists _, _; reflexivity];
           split; [intros [t' H']; discriminate|];
           intros [H'|(r0 & H' & H'')]; [discriminate|];
           injection H' as <-; rewrite Hrt in H''; discriminate).
    rewrite H. split; [|right; eexists; reflexivity].
    split; [intros _; right; exists req0; split; [reflexivity|exact Hrt]|].
    intros _. eexists; reflexivity.
  - rewrite H. split; [|right; eexists; reflexivity].
    split; [intros _; left; reflexivity|intros _; eexists; reflexivity].
Qed.

(** X15. When the body of an answer outside 200..399 cannot be read, the
    attempt returns the read error as it is, with the status recorded and
    without body or headers; what was read of the body is dropped. *)
Theorem attempt_read_error (req0 : Request) (t : trace) (r : Response) (e : error) :
  built = Some req0 ->
  roundTrip w t (prepare w cli method req0) = (Some r, None) ->
  StatusCode r < 200 \/ 400 <= StatusCode r ->
  readErr (RespBody r) = Some e ->
  attempt t =
  Returned ({| body := None; header := None; statusCode := StatusCode r |}, Some e)
           (t ++ [EvDo (prepare w cli method req0)]).
Proof.
  intros Hb Hrt Hst Hread.
  rewrite (attempt_built w cli method path query data headers req0 t Hb). cbv zeta.
  rewrite Hrt. unfold conclude. simpl.
  assert (Hc : (StatusCode r <? 200) || (400 <=? StatusCode r) = true).
  { apply orb_true_iff. destruct Hst; [left; now apply Z.ltb_lt | right; now apply Z.leb_le]. }
  rewrite Hc. run. now rewrite Hread.
Qed.

(** What the probe comes to, by the answers to its two calls. *)
Lemma tryProxy_outcome (t : trace) :
  let url := proxyUrl cli in
  match plainGet w t url with
  | (_, Some e) => tryProxy w cli t = Returned (Some e) (t ++ [EvGet url])
  | (None, None) => tryProxy w cli t = Panicked (t ++ [EvGet url])
  | (Some pr, None) =>
      let unhandled :=
        errorString ("can not handle status code" +:+ pretty (StatusCode pr)) in
      match Regexp.FindSubmatch proxyPattern (content (RespBody pr)) with
      | m0 :: m1 :: _ =>
          if StatusCode pr =? 403 then
            match fst (plainGet w (t ++ [EvGet url]) m1) with
            | Some _ => tryProxy w cli t = Returned None (t ++ [EvGet url; EvGet m1])
            | None => tryProxy w cli t = Panicked (t ++ [EvGet url; EvGet m1])
            end
          else tryProxy w cli t = Returned (Some unhandled) (t ++ [EvGet url])
      | _ => tryProxy w cli t = Returned (Some unhandled) (t ++ [EvGet url])
      end
  end.
Proof.
  cbv zeta. unfold tryProxy. run.
  destruct (plainGet w t (proxyUrl cli)) as [[pr|] [e|]] eqn:Hg; simpl;
    try reflexivity.
  destruct (Regexp.FindSubmatch proxyPattern (content (RespBody pr)))
    as [|m0 [|m1 ms]] eqn:Hm; simpl;
    destruct (StatusCode pr =? 403); simpl; try reflexivity.
  destruct (plainGet w _ m1) as [[r|] e2]; simpl; run; now rewrite <- app_assoc.
Qed.

(** X16. The probe crashes in exactly two cases: its first GET returned
    neither a response nor an error, or the answer was a 403 whose body
    matched and the GET of the captured URL returned no response (its
    error is dropped at line 98 and the nil response is closed at
    line 99). *)
Theorem tryProxy_panics_iff (t : trace) :
  (exists t', tryProxy w cli t = Panicked t')
  <-> plainGet w t (proxyUrl cli) = (None, None)
      \/ exists pr m0 m1 ms,
          plainGet w t (proxyUrl cli) = (Some pr, None)
          /\ StatusCode pr = 403
          /\ Regexp.FindSubmatch proxyPattern (content (RespBody pr)) = m0 :: m1 :: ms
          /\ fst (plainGet w (t ++ [EvGet (proxyUrl cli)]) m1) = None.
Proof.
  pose proof (tryProxy_outcome t) as H. cbv zeta in H.
  destruct (plainGet w t (proxyUrl cli)) as [[pr|] [e|]] eqn:Hg.
  - rewrite H. split; [intros [t' H']; discriminate|].
    intros [H'|(pr' & m0 & m1 & ms & H' & _)]; discriminate.
  - destruct (Regexp.FindSubmatch proxyPattern (content (RespBody pr)))
      as [|m0 [|m1 ms]] eqn:Hm.
    + rewrite H. split; [intros [t' H']; discriminate|].
      intros [H'|(pr' & m0 & m1 & ms & H' & _ & Hm' & _)]; [discriminate|].
      injection H' as <-. rewrite Hm in Hm'. discriminate.
    + rewrite H. split; [intros [t' H']; discriminate|].
      intros [H'|(pr' & m0' & m1 & ms & H' & _ & Hm' & _)]; [discriminate|].
      injection H' as <-. rewrite Hm in Hm'. discriminate.
    + destruct (Z.eqb_spec (StatusCode pr) 403) as [Hs|Hs].
      * destruct (fst (plainGet w (t ++ [EvGet (proxyUrl cli)]) m1)) eqn:H2.
        -- rewrite H. split; [intros [t' H']; discriminate|].
           intros [H'|(pr' & m0' & m1' & ms' & H' & _ & Hm' & H2')]; [discriminate|].
           injection H' as <-. rewrite Hm in Hm'. injection Hm' as <- <- <-.
           rewrite H2 in H2'. discriminate.
        -- rewrite H. split; [|intros _; eexists; reflexivity].
           intros _. right. exists pr, m0, m1, ms. repeat split; assumption.
      * rewrite H. split; [intros [t' H']; discriminate|].
        intros [H'|(pr' & m0' & m1' & ms' & H' & Hs' & _)]; [discriminate|].
        injection H' as <-. contradiction.
  - rewrite H. split; [intros [t' H']; discriminate|].
    intros [H'|(pr' & m0 & m1 & ms & H' & _)]; discriminate.
  - rewrite H. split; [intros _; left; reflexivity|intros _; eexists; reflexivity].
Qed.

(** X17. An error the probe returns is the error of its first GET, as it
    is, or "can not handle status code" followed by the status of the
    answer, without a space; the latter for every status other than 403
    and for a 403 whose body does not match. Only the first GET was made. *)
Theorem tryProxy_error_cases (t t' : trace) (e : error) :
  tryProxy w cli t = Returned (Some e) t' ->
  t' = t ++ [EvGet (proxyUrl cli)]
  /\ (snd (plainGet w t (proxyUrl cli)) = Some e
      \/ exists pr,
          plainGet w t (proxyUrl cli) = (Some pr, None)
          /\ e = errorString ("can not handle status code" +:+ pretty (StatusCode pr))
          /\ (StatusCode pr <> 403
              \/ Regexp.FindSubmatch proxyPattern (content (RespBody pr)) = [])).
Proof.
  pose proof (tryProxy_outcome t) as H. cbv zeta in H. intros Hr.
  assert (Hlen : forall s, Regexp.FindSubmatch proxyPattern s = []
                           \/ exists m0 m1, Regexp.FindSubmatch proxyPattern s = [m0; m1]).
  { intros s. unfold Regexp.FindSubmatch.
    destruct (Regexp.search proxyPattern s 0) as [[b [e0 [gb ge]]]|];
      [right; eexists _, _; reflexivity|left; reflexivity]. }
  destruct (plainGet w t (proxyUrl cli)) as [[pr|] [e1|]] eqn:Hg.
  - rewrite H in Hr. injection Hr as <- <-. split; [reflexivity|left; reflexivity].
  - destruct (Hlen (content (RespBody pr))) as [Hm|(m0 & m1 & Hm)]; rewrite Hm in H.
    + rewrite H in Hr. injection Hr as <- <-. split; [reflexivity|].
      right. exists pr. split; [reflexivity|]. split; [reflexivity|]. right. exact Hm.
    + destruct (Z.eqb_spec (StatusCode pr) 403) as [Hs|Hs].
      * destruct (fst (plainGet w (t ++ [EvGet (proxyUrl cli)]) m1));
          rewrite H in Hr; discriminate.
      * rewrite H in Hr. injection Hr as <- <-. split; [reflexivity|].
        right. exists pr. split; [reflexivity|]. split; [reflexivity|]. left. exact Hs.
  - rewrite H in Hr. injection Hr as <- <-. split; [reflexivity|left; reflexivity].
  - rewrite H in Hr. discriminate.
Qed.

(** The loop crashes only where an attempt or a probe does. *)
Lemma loop_no_panic (fuel : nat) :
  (forall t t', attempt t <> Panicked t') ->
  (forall t t', tryProxy w cli t <> Panicked t') ->
  forall (N try : Z) resp err (t t' : trace),
    retryLoop w fuel cli method path query data headers N try resp err t <> Panicked t'.
Proof.
  intros Ha Hp. induction fuel as [|fuel IH]; intros N try resp err t t'.
  - destruct (Z_le_gt_dec try N) as [Hle|Hgt].
    + rewrite (loop_out_of_fuel w cli method path query data headers) by exact Hle.
      discriminate.
    + rewrite loop_done by lia. discriminate.
  - destruct (Z_le_gt_dec try N) as [Hle|Hgt]; [|rewrite loop_done by lia; discriminate].
    rewrite (loop_unfold w cli method path query data headers) by exact Hle.
    destruct (attempt (t ++ [EvAttempt])) as [[sr [e|]] t1|t1|t1] eqn:E;
      try discriminate; [|exfalso; exact (Ha _ _ E)].
    destruct (retryable (statusCode sr)); [|discriminate].
    destruct (tryProxy w cli (t1 ++ [EvProbe])) as [r t2|t2|t2] eqn:E2;
      try discriminate; [apply IH|exfalso; exact (Hp _ _ E2)].
Qed.

(** X18. A dispatch never crashes when the request can be built, the
    transport always returns a response or an error, and so does the
    plain GET of the probe, the GET of a captured URL always returning a
    response. *)
Theorem dispatch_never_panics (req0 : Request) :
  built = Some req0 ->
  (forall t, roundTrip w t (prepare w cli method req0) <> (None, None)) ->
  (forall t, plainGet w t (proxyUrl cli) <> (None, None)) ->
  (forall t pr m0 m1 ms,
      plainGet w t (proxyUrl cli) = (Some pr, None) ->
      StatusCode pr = 403 ->
      Regexp.FindSubmatch proxyPattern (content (RespBody pr)) = m0 :: m1 :: ms ->
      fst (plainGet w (t ++ [EvGet (proxyUrl cli)]) m1) <> None) ->
  forall fuel t t', dispatch fuel t <> Panicked t'.
Proof.
  intros Hb Hrt Hg H2 fuel t t'. unfold sendClientRequest.
  apply loop_no_panic.
  - intros t0 t0' E. pose proof (attempt_outcome t0) as H. rewrite Hb in H. cbv zeta in H.
    specialize (Hrt t0).
    destruct (roundTrip w t0 (prepare w cli method req0)) as [[r|] [e|]];
      try (lazymatch type of H with ex _ => destruct H as [x H] end;
           rewrite H in E; discriminate).
    now apply Hrt.
  - intros t0 t0' E. pose proof (tryProxy_outcome t0) as H. cbv zeta in H.
    specialize (Hg t0). specialize (H2 t0).
    destruct (plainGet w t0 (proxyUrl cli)) as [[pr|] [e|]];
      try (rewrite H in E; discriminate); [|now apply Hg].
    destruct (Regexp.FindSubmatch proxyPattern (content (RespBody pr)))
      as [|m0 [|m1 ms]] eqn:Hm; try (rewrite H in E; discriminate).
    destruct (Z.eqb_spec (StatusCode pr) 403) as [Hs|Hs];
      [|rewrite H in E; discriminate].
    specialize (H2 pr m0 m1 ms eq_refl Hs Hm).
    destruct (fst (plainGet w (t0 ++ [EvGet (proxyUrl cli)]) m1));
      [rewrite H in E; discriminate|now apply H2].
Qed.

End Crashes.

(** ** The crash cases on concrete dispatches *)

Section ConcreteCrashes.

Import Demo.

(** X13 at a header neither the client nor the caller names. *)
Lemma newRequest_leaves_other_headers_witness :
  exists req0,
    http_NewRequest "GET" (getAPIPath cli "/info" ∅) (payload "GET" None) = inl req0
    /\ ReqHeader (request "GET" "/info" (Some {[ "X-Registry-Auth" := ["e30="] ]}))
         !! "Accept"
       = ReqHeader req0 !! "Accept"
    /\ Method (request "GET" "/info" (Some {[ "X-Registry-Auth" := ["e30="] ]}))
       = Method req0
    /\ ReqURL (request "GET" "/info" (Some {[ "X-Registry-Auth" := ["e30="] ]}))
       = ReqURL req0
    /\ ReqBody (request "GET" "/info" (Some {[ "X-Registry-Auth" := ["e30="] ]}))
       = ReqBody req0.
Proof.
  apply (newRequest_leaves_other_headers cli "GET" "/info" ∅ (payload "GET" None)
           (Some {[ "X-Registry-Auth" := ["e30="] ]}) _ "Accept"
           (request_built "GET" "/info" _ eq_refl eq_refl)).
  - intros k c Hk. unfold cli, customHTTPHeaders in Hk.
    apply lookup_singleton_Some in Hk as [<- _].
    rewrite canon_user_agent. discriminate.
  - intros hs [= <-]. apply lookup_singleton_ne. discriminate.
Defined.

(** X15 at an answer 500 whose body breaks off. *)
Lemma attempt_read_error_witness :
  doSendClientRequest DemoVerbs.brokenBody cli "GET" "/info" ∅ None None []
  = Returned ({| body := None; header := None; statusCode := 500 |},
              Some (errorString "unexpected EOF"))
             ([] ++ [EvDo (prepare DemoVerbs.brokenBody cli "GET"
                             (request "GET" "/info" None))]).
Proof.
  apply (attempt_read_error DemoVerbs.brokenBody cli "GET" "/info" ∅ None None
           (request "GET" "/info" None) []
           {| StatusCode := 500; RespHeader := ∅;
              RespBody := {| content := "inter";
                             readErr := Some (errorString "unexpected EOF") |} |}
           (errorString "unexpected EOF")
           (request_built "GET" "/info" None eq_refl eq_refl) eq_refl).
  - right. simpl. lia.
  - reflexivity.
Defined.

(** X17 at a diagnostic endpoint that refuses the connection. *)
Lemma tryProxy_error_cases_witness :
  [] ++ [EvGet "http://daemon:2375/v1.22/info"] = [] ++ [EvGet (proxyUrl cli)]
  /\ (snd (plainGet (blocked None) [] (proxyUrl cli))
      = Some (libError "dial tcp: connection refused" (Some false))
      \/ exists pr,
          plainGet (blocked None) [] (proxyUrl cli) = (Some pr, None)
          /\ libError "dial tcp: connection refused" (Some false)
             = errorString ("can not handle status code" +:+ pretty (StatusCode pr))
          /\ (StatusCode pr <> 403
              \/ Regexp.FindSubmatch proxyPattern (content (RespBody pr)) = [])).
Proof.
  apply (tryProxy_error_cases (blocked None) cli [] _ _ (probe_blocked None [])).
Defined.

(** X18 behind the proxy that answers every request 403. *)
Lemma dispatch_never_panics_witness :
  sendClientRequest (blocked (Some "2")) 3 cli "GET" "/info" ∅ None None [] <> Panicked [].
Proof.
  apply (dispatch_never_panics (blocked (Some "2")) cli "GET" "/info" ∅ None None
           (request "GET" "/info" None)
           (request_built "GET" "/info" None eq_refl eq_refl)).
  - intros t H. discriminate H.
  - intros t H. discriminate H.
  - intros t pr m0 m1 ms H. discriminate H.
Defined.

End ConcreteCrashes.

(** ** The pattern of the probe *)

Lemma length_app (a b : string) :
  String.length (a +:+ b) = (String.length a + String.length b)%nat.
Proof.
  induction a as [|x a IH]; [reflexivity|].
  rewrite append_String. simpl. now rewrite IH.
Qed.

Lemma substring_skip (x y : string) (n : nat) :
  substring (String.length x) n (x +:+ y) = substring 0 n y.
Proof.
  induction x as [|c x IH]; [reflexivity|].
  rewrite append_String. simpl. exact IH.
Qed.

Lemma substring_prefix (x y : string) :
  substring 0 (String.length x) (x +:+ y) = x.
Proof.
  induction x as [|c x IH]; [destruct y; reflexivity|].
  rewrite append_String. simpl. now rewrite IH.
Qed.

(** The matcher, one pattern item at a time. *)
Lemma matchHere_Lit (c : ascii) (rest : list Regexp.item) (s : string) (pos : nat)
    (g : nat * nat) (r : nat * (nat * nat)) :
  Regexp.matchHere (Regexp.Lit c :: rest) s pos g = Some r ->
  exists s', s = String c s' /\ Regexp.matchHere rest s' (S pos) g = Some r.
Proof.
  destruct s as [|c' s']; simpl; [discriminate|].
  destruct (Ascii.eqb_spec c c') as [->|_]; [|discriminate].
  intros H. exists s'. split; [reflexivity|exact H].
Qed.

Lemma matchHere_DotStar (rest : list Regexp.item) (g : nat * nat)
    (r : nat * (nat * nat)) (s : string) :
  forall pos,
    Regexp.matchHere (Regexp.DotStar :: rest) s pos g = Some r ->
    exists a s',
      s = a +:+ s'
      /\ Regexp.matchHere rest s' (pos + String.length a) g = Some r.
Proof.
  induction s as [|c s IH]; intros pos H.
  - exists "", "". split; [reflexivity|]. rewrite Nat.add_0_r. exact H.
  - change (Regexp.matchHere (Regexp.DotStar :: rest) (String c s) pos g)
      with (if Ascii.eqb c GoStrings.newline
            then Regexp.matchHere rest (String c s) pos g
            else match Regexp.matchHere (Regexp.DotStar :: rest) s (S pos) g with
                 | Some r => Some r
                 | None => Regexp.matchHere rest (String c s) pos g
                 end) in H.
    destruct (Ascii.eqb c GoStrings.newline).
    + exists "", (String c s). split; [reflexivity|]. rewrite Nat.add_0_r. exact H.
    + destruct (Regexp.matchHere (Regexp.DotStar :: rest) s (S pos) g) as [r'|] eqn:E.
      * injection H as ->. destruct (IH _ E) as (a & s' & -> & H').
        exists (String c a), s'. split; [reflexivity|].
        simpl. rewrite Nat.add_succ_r. exact H'.
      * exists "", (String c s). split; [reflexivity|]. rewrite Nat.add_0_r. exact H.
Qed.

Lemma search_found (pat : list Regexp.item) (s : string) :
  forall pos b e g,
    Regexp.search pat s pos = Some (b, (e, g)) ->
    exists skip s',
      s = skip +:+ s'
      /\ b = (pos + String.length skip)%nat
      /\ Regexp.matchHere pat s' b (0%nat, 0%nat) = Some (e, g).
Proof.
  induction s as [|c s IH]; intros pos b e g H; simpl in H.
  - destruct (Regexp.matchHere pat "" pos (0%nat, 0%nat)) as [[e' g']|] eqn:E;
      [|discriminate].
    injection H as <- <- <-. exists "", "". rewrite Nat.add_0_r. auto.
  - destruct (Regexp.matchHere pat (String c s) pos (0%nat, 0%nat)) as [[e' g']|] eqn:E.
    + injection H as <- <- <-. exists "", (String c s). rewrite Nat.add_0_r. auto.
    + destruct (IH _ _ _ _ H) as (skip & s' & -> & -> & H').
      exists (String c skip), s'. split; [reflexivity|]. simpl.
      rewrite Nat.add_succ_r. split; [reflexivity|exact H'].
Qed.

(** A match of the probe's pattern: a quote, the group, a quote. *)
Lemma proxyPattern_match (s : string) (pos : nat) (g : nat * nat) (e gb ge : nat) :
  Regexp.matchHere proxyPattern s pos g = Some (e, (gb, ge)) ->
  exists pre a b post,
    s = pre +:+ String GoStrings.dquote
                  (("http://" +:+ a +:+ "http://" +:+ b)
                     +:+ String GoStrings.dquote post)
    /\ gb = (pos + String.length pre + 1)%nat
    /\ ge = (gb + String.length ("http://" +:+ a +:+ "http://" +:+ b))%nat.
Proof.
  unfold proxyPattern. cbn [Regexp.lits app]. intros H.
  apply matchHere_DotStar in H as (pre & s1 & -> & H).
  apply matchHere_Lit in H as (s2 & -> & H).
  change (Regexp.matchHere (Regexp.GroupOpen :: ?p) ?s ?n ?g)
    with (Regexp.matchHere p s n (n, snd g)) in H.
  do 7 (apply matchHere_Lit in H as (? & -> & H)).
  apply matchHere_DotStar in H as (a & s3 & -> & H).
  do 7 (apply matchHere_Lit in H as (? & -> & H)).
  apply matchHere_DotStar in H as (b & s4 & -> & H).
  change (Regexp.matchHere (Regexp.GroupClose :: ?p) ?s ?n ?g)
    with (Regexp.matchHere p s n (fst g, n)) in H.
  apply matchHere_Lit in H as (s5 & -> & H).
  apply matchHere_DotStar in H as (post & s6 & -> & H).
  simpl in H. injection H as <- <- <-.
  exists pre, a, b, (post +:+ s6). split; [|split].
  - repeat (rewrite append_String || rewrite append_empty_l || rewrite append_assoc).
    reflexivity.
  - lia.
  - repeat (rewrite append_String || rewrite append_empty_l).
    cbn [String.length]. rewrite length_app.
    repeat (rewrite append_String || rewrite append_empty_l).
    cbn [String.length]. lia.
Qed.

(** What the group of the probe's pattern captures. *)
Lemma proxyPattern_capture (data m0 m1 : string) (ms : list string) :
  Regexp.FindSubmatch proxyPattern data = m0 :: m1 :: ms ->
  exists a b,
    m1 = "http://" +:+ a +:+ "http://" +:+ b
    /\ GoStrings.Contains data
         (String GoStrings.dquote (m1 +:+ String GoStrings.dquote "")) = true.
Proof.
  unfold Regexp.FindSubmatch.
  destruct (Regexp.search proxyPattern data 0) as [[b0 [e [gb ge]]]|] eqn:Hs;
    [|discriminate].
  intros [= _ <- _].
  apply search_found in Hs as (skip & s' & -> & -> & Hm).
  apply proxyPattern_match in Hm as (pre & a & b & post & -> & -> & ->).
  exists a, b.
  set (M := "http://" +:+ a +:+ "http://" +:+ b).
  assert (Hslice : Regexp.slice
                     (skip +:+ pre +:+ String GoStrings.dquote
                                          (M +:+ String GoStrings.dquote post))
                     (0 + String.length skip + String.length pre + 1)
                     (0 + String.length skip + String.length pre + 1 + String.length M)
                   = M).
  { unfold Regexp.slice.
    replace (0 + String.length skip + String.length pre + 1 + String.length M
             - (0 + String.length skip + String.length pre + 1))%nat
      with (String.length M) by lia.
    replace (skip +:+ pre +:+ String GoStrings.dquote (M +:+ String GoStrings.dquote post))
      with ((skip +:+ pre +:+ String GoStrings.dquote "")
              +:+ (M +:+ String GoStrings.dquote post)).
    - replace (0 + String.length skip + String.length pre + 1)%nat
        with (String.length (skip +:+ pre +:+ String GoStrings.dquote "")).
      + rewrite substring_skip. apply substring_prefix.
      + rewrite !length_app. simpl. lia.
    - rewrite !append_assoc, append_String, append_empty_l. reflexivity. }
  rewrite Hslice. split; [reflexivity|].
  replace (skip +:+ pre +:+ String GoStrings.dquote (M +:+ String GoStrings.dquote post))
    with ((skip +:+ pre) +:+ String GoStrings.dquote (M +:+ String GoStrings.dquote "")
            +:+ post).
  - apply Contains_app.
  - rewrite !append_assoc, !append_String, !append_assoc, append_String, append_empty_l.
    reflexivity.
Qed.

Section ProbeTarget.

Context {ext : Externals}.
Variable w : World.
Variable cli : Client.

(** X19. Beside the client's own /info URL, the only URL the probe ever
    fetches is taken from the body of a 403 answer to its first GET: it
    stands there between double quotes, starts with http:// and holds a
    second http://. *)
Theorem tryProxy_second_target (t : trace) (u : string) :
  traceOf (tryProxy w cli t) = t ++ [EvGet (proxyUrl cli); EvGet u] ->
  exists pr a b,
    plainGet w t (proxyUrl cli) = (Some pr, None)
    /\ StatusCode pr = 403
    /\ u = "http://" +:+ a +:+ "http://" +:+ b
    /\ GoStrings.Contains (content (RespBody pr))
         (String GoStrings.dquote (u +:+ String GoStrings.dquote "")) = true.
Proof.
  pose proof (tryProxy_outcome w cli t) as H. cbv zeta in H. intros Ht.
  assert (Hone : forall o, tryProxy w cli t = o ->
                           traceOf o = t ++ [EvGet (proxyUrl cli)] -> False).
  { intros o Ho Hto. rewrite Ho, Hto in Ht. apply app_inv_head in Ht. discriminate. }
  destruct (plainGet w t (proxyUrl cli)) as [[pr|] [e|]] eqn:Hg;
    try (exfalso; exact (Hone _ H eq_refl)).
  destruct (Regexp.FindSubmatch proxyPattern (content (RespBody pr)))
    as [|m0 [|m1 ms]] eqn:Hm; try (exfalso; exact (Hone _ H eq_refl)).
  destruct (Z.eqb_spec (StatusCode pr) 403) as [Hs|Hs];
    [|exfalso; exact (Hone _ H eq_refl)].
  assert (Hu : u = m1).
  { destruct (fst (plainGet w (t ++ [EvGet (proxyUrl cli)]) m1));
      rewrite H in Ht; simpl in Ht; apply app_inv_head in Ht; congruence. }
  subst u. destruct (proxyPattern_capture _ _ _ _ Hm) as (a & b & Hab & Hc).
  exists pr, a, b. repeat split; assumption.
Qed.

End ProbeTarget.

Section ConcreteTarget.

Import Demo.

(** X19 behind the portal that can be reached. *)
Lemma tryProxy_second_target_witness :
  exists pr a b,
    plainGet DemoVerbs.portal [] (proxyUrl cli) = (Some pr, None)
    /\ StatusCode pr = 403
    /\ "http://portal/login?url=http://daemon:2375/" = "http://" +:+ a +:+ "http://" +:+ b
    /\ GoStrings.Contains (content (RespBody pr))
         (String GoStrings.dquote
            ("http://portal/login?url=http://daemon:2375/"
               +:+ String GoStrings.dquote "")) = true.
Proof.
  apply (tryProxy_second_target DemoVerbs.portal cli []
           "http://portal/login?url=http://daemon:2375/").
  rewrite probe_portal. reflexivity.
Defined.

End ConcreteTarget.
